(** * teleseerr: the Telegram front end of an Overseerr media-request backend

    A shallow embedding of [telegram_bot.py]: the catalogue search tool
    ([search_overseerr]), the request call ([request_overseerr]), the
    construction of the inline-button callback data in [handle_message] and
    its parsing and execution in [button_callback].

    Python values are modelled as follows.
    - [str] is [string]; a character is a code point below 256, and the
      character classes below are Python's on that range.
    - [int] is [Z]; [str(n)] is stdpp's decimal printer [pretty].  CPython's
      configurable cap on the number of digits of a conversion is not part of
      the model.
    - a [dict] is a [gmap] with [string] keys; [None] and JSON [null] are
      [JNull]; JSON numbers are integers.
    - a raised exception is the [Raise] case of [result]. *)

From Stdlib Require Import ZArith Ascii String List Lia Permutation Sorted.
From stdpp Require Import gmap strings pretty sorting.

Local Open Scope Z_scope.
Set Warnings "-register-all".

(** ** Exceptions *)

Inductive exn : Type :=
| IndexError
| ValueError
| TypeError
| AttributeError
| TransportError.

Inductive result (A : Type) : Type :=
| Ok (a : A)
| Raise (e : exn).
Arguments Ok {A} a.
Arguments Raise {A} e.

Global Instance result_ret : MRet result := λ A a, Ok a.
Global Instance result_bind : MBind result := λ A B k m,
  match m with
  | Ok a => k a
  | Raise e => Raise e
  end.

(** ** Python string built-ins *)

Module PyStr.

Definition code (c : ascii) : Z := Z.of_N (N_of_ascii c).

(** The ten ASCII digits, the only characters below 256 that [int] reads as
    digits.  The decimal digits of other scripts, which [int] reads too, lie
    beyond the characters of the model. *)
Definition is_decimal (c : ascii) : bool :=
  (48 <=? code c) && (code c <=? 57).

Definition digit_value (c : ascii) : Z := code c - 48.

(** Characters for which [str.isdigit] holds: the decimal digits and the
    superscripts U+00B2, U+00B3 and U+00B9. *)
Definition is_digit_char (c : ascii) : bool :=
  is_decimal c || (code c =? 178) || (code c =? 179) || (code c =? 185).

(** White space skipped by [int]: TAB, LF, VT, FF, CR, SPACE, and the
    non-ASCII spaces U+0085 and U+00A0. *)
Definition is_int_space (c : ascii) : bool :=
  ((9 <=? code c) && (code c <=? 13)) || (code c =? 32)
  || (code c =? 133) || (code c =? 160).

Fixpoint forallb_str (p : ascii → bool) (s : string) : bool :=
  match s with
  | EmptyString => true
  | String c r => p c && forallb_str p r
  end.

(** [sep not in s] *)
Definition lacks (sep : ascii) (s : string) : bool :=
  forallb_str (λ c, negb (Ascii.eqb c sep)) s.

(** [s.isdigit()] *)
Definition isdigit (s : string) : bool :=
  match s with
  | EmptyString => false
  | _ => forallb_str is_digit_char s
  end.

(** [s.startswith(p)] *)
Definition startswith (s p : string) : bool := String.prefix p s.

(** [s.split(sep)] for a separator of one character. *)
Fixpoint split (sep : ascii) (s : string) : list string :=
  match s with
  | EmptyString => [EmptyString]
  | String c r =>
      if Ascii.eqb c sep then EmptyString :: split sep r
      else match split sep r with
           | h :: t => String c h :: t
           | [] => [String c EmptyString]
           end
  end.

(** [sep.join(l)] *)
Fixpoint join (sep : string) (l : list string) : string :=
  match l with
  | [] => EmptyString
  | [x] => x
  | x :: r => x +:+ sep +:+ join sep r
  end.

(** [s[:n]] *)
Fixpoint slice_to (n : nat) (s : string) : string :=
  match n, s with
  | S n', String c r => String c (slice_to n' r)
  | _, _ => EmptyString
  end.

(** [str(n)] *)
Definition str (n : Z) : string := pretty n.

Fixpoint skip_space (s : string) : string :=
  match s with
  | String c r => if is_int_space c then skip_space r else s
  | EmptyString => s
  end.

(** The digits of an integer literal, read left to right: [acc] is the
    value so far and [prev] tells whether the previous character was a
    digit.  Digits may be separated by single underscores; white space may
    follow the last digit. *)
Fixpoint digits (acc : Z) (prev : bool) (s : string) : option Z :=
  match s with
  | EmptyString => if prev then Some acc else None
  | String c r =>
      if is_decimal c then digits (acc * 10 + digit_value c) true r
      else if Ascii.eqb c "_" then
        if prev then digits acc false r else None
      else if prev && forallb_str is_int_space s then Some acc
      else None
  end.

(** [int(s)] in base ten; [ValueError] when [s] is not a literal. *)
Definition int (s : string) : result Z :=
  let body := skip_space s in
  let '(neg, ds) :=
    match body with
    | String "+" r => (false, r)
    | String "-" r => (true, r)
    | _ => (false, body)
    end in
  match digits 0 false ds with
  | Some v => Ok (if neg then - v else v)
  | None => Raise ValueError
  end.

(** [l[i]] on a list; [IndexError] out of range. *)
Definition index {A : Type} (l : list A) (i : nat) : result A :=
  match l !! i with
  | Some a => Ok a
  | None => Raise IndexError
  end.

End PyStr.

(** ** JSON values and Python dictionaries *)

Inductive json : Type :=
| JNull
| JBool (b : bool)
| JInt (n : Z)
| JStr (s : string)
| JList (l : list json)
| JObj (o : gmap string json).

(** Truth value of a Python object in a condition. *)
Definition truthy (j : json) : bool :=
  match j with
  | JNull => false
  | JBool b => b
  | JInt n => negb (n =? 0)
  | JStr s => negb (String.eqb s "")
  | JList l => match l with [] => false | _ => true end
  | JObj o => negb (Nat.eqb (size o) 0)
  end.

(** [d.get(key, default)]; only a dict has the method. *)
Definition get (d : json) (key : string) (dflt : json) : result json :=
  match d with
  | JObj o => Ok (default dflt (o !! key))
  | _ => Raise AttributeError
  end.

(** [x == n] for an integer constant [n]. *)
Definition eq_int (x : json) (n : Z) : bool :=
  match x with
  | JInt m => m =? n
  | _ => false
  end.

(** [x == s] for a string [s]. *)
Definition eq_str (x : json) (s : string) : bool :=
  match x with
  | JStr t => String.eqb t s
  | _ => false
  end.

(** [x in [2, 3, 4]] *)
Definition in_2_3_4 (x : json) : bool :=
  eq_int x 2 || eq_int x 3 || eq_int x 4.

(** [for r in x]: a list yields its elements, a string its characters, a
    dict its keys; nothing else is iterable. *)
Fixpoint chars (s : string) : list json :=
  match s with
  | EmptyString => []
  | String c r => JStr (String c EmptyString) :: chars r
  end.

Definition iterate (x : json) : result (list json) :=
  match x with
  | JList l => Ok l
  | JStr s => Ok (chars s)
  | JObj o => Ok (map (λ kv, JStr kv.1) (map_to_list o))
  | _ => Raise TypeError
  end.

(** [x[:n]]: lists and strings are sliced, nothing else is. *)
Definition slice (x : json) (n : nat) : result json :=
  match x with
  | JList l => Ok (JList (take n l))
  | JStr s => Ok (JStr (PyStr.slice_to n s))
  | _ => Raise TypeError
  end.

(** ** The catalogue search: [search_overseerr] *)

Definition IMAGE_TMDB_URL : string :=
  "https://image.tmdb.org/t/p/w600_and_h900_bestv2".

(** One entry of [processed_results]. *)
Record candidate : Type := {
  title : json;
  year : json;
  media_id : json;
  media_type : json;
  overview : json;
  status : string;
  poster_url : json
}.

(** What [search_overseerr] returns: processed results, or the body text of
    a failed response. *)
Inductive search_item : Type :=
| Candidate (c : candidate)
| ErrorText (s : string).

(** The response object of [httpx.get]; [json_body] is [resp.json()]. *)
Record http_response : Type := {
  is_success : bool;
  status_code : Z;
  text : string;
  json_body : result json
}.

(** The status of a result from its [mediaInfo]. *)
Definition derive_status (media_info : json) : result string :=
  if truthy media_info then
    media_status ← get media_info "status" JNull;
    media_status_4k ← get media_info "status4k" JNull;
    if eq_int media_status 5 || eq_int media_status_4k 5 then Ok "Available"%string
    else if in_2_3_4 media_status || in_2_3_4 media_status_4k
         then Ok "Requested"%string
         else Ok "Not Requested"%string
  else Ok "Not Requested"%string.

(** The status code under [key] in [media_info]: the integer found there,
    if any. *)
Definition code_at (media_info : json) (key : string) : option Z :=
  match media_info with
  | JObj mi => match mi !! key with Some (JInt n) => Some n | _ => None end
  | _ => None
  end.

(** A value that is a dict or counts as false. *)
Definition dict_or_false (x : json) : bool :=
  match x with
  | JObj _ => true
  | _ => negb (truthy x)
  end.

(** A value that can be sliced. *)
Definition sliceable (x : json) : bool :=
  match x with
  | JStr _ | JList _ => true
  | _ => false
  end.

(** The results that the loop body processes without raising: a dict whose
    [mediaInfo] is a dict or false and whose [releaseDate], when there is
    one, can be sliced. *)
Definition well_formed (r : json) : bool :=
  match r with
  | JObj o =>
      dict_or_false (default JNull (o !! "mediaInfo"))
      && sliceable (default (JStr "") (o !! "releaseDate"))
  | _ => false
  end.

(** [r.get("mediaType") == media_type] on a dict. *)
Definition has_media_type (media_type : string) (r : json) : bool :=
  match r with
  | JObj o => eq_str (default JNull (o !! "mediaType")) media_type
  | _ => false
  end.

Section Search.

(** Library functions that the module calls and does not define: the
    display form of a list or a dict inside an f-string,
    [urllib.parse.quote_plus], and the backend reached by [httpx.get], as a
    function of the value of the [query] parameter. *)
Variable py_repr : json → string.
Variable quote_plus : string → string.
Variable httpx_get : string → result http_response.

(** [f"{x}"] *)
Definition format (x : json) : string :=
  match x with
  | JNull => "None"
  | JBool true => "True"
  | JBool false => "False"
  | JInt n => PyStr.str n
  | JStr s => s
  | _ => py_repr x
  end.

(** The body of the loop over [results[:2]]. *)
Definition process_result (r : json) : result candidate :=
  media_info ← get r "mediaInfo" JNull;
  status ← derive_status media_info;
  poster_path ← get r "posterPath" JNull;
  let poster_url :=
    if truthy poster_path then JStr (IMAGE_TMDB_URL +:+ format poster_path)
    else JNull in
  title ← get r "title" JNull;
  name ← get r "name" JNull;
  release_date ← get r "releaseDate" (JStr "");
  year ← slice release_date 4;
  media_id ← get r "id" JNull;
  media_type ← get r "mediaType" JNull;
  overview ← get r "overview" JNull;
  Ok {| title := if truthy title then title else name;
        year := year;
        media_id := media_id;
        media_type := media_type;
        overview := overview;
        status := status;
        poster_url := poster_url |}.

(** [for r in rs: ... processed_results.append(...)] *)
Fixpoint process_loop (rs : list json) (processed_results : list candidate)
  : result (list candidate) :=
  match rs with
  | [] => Ok processed_results
  | r :: rs' =>
      c ← process_result r;
      process_loop rs' (processed_results ++ [c])
  end.

(** [[r for r in rs if r.get("mediaType") == media_type]] *)
Fixpoint filter_media_type (media_type : string) (rs : list json)
  : result (list json) :=
  match rs with
  | [] => Ok []
  | r :: rs' =>
      mt ← get r "mediaType" JNull;
      kept ← filter_media_type media_type rs';
      Ok (if eq_str mt media_type then r :: kept else kept)
  end.

Definition search_overseerr (query media_type : string)
  : result (list search_item) :=
  resp ← httpx_get (quote_plus query);
  if is_success resp then
    body ← json_body resp;
    results ← get body "results" (JList []);
    results ← (if negb (String.eqb media_type "") then
                 rs ← iterate results;
                 kept ← filter_media_type media_type rs;
                 Ok (JList kept)
               else Ok results);
    first_two ← slice results 2;
    rs ← iterate first_two;
    processed_results ← process_loop rs [];
    Ok (map Candidate processed_results)
  else Ok [ErrorText (text resp)].

End Search.

(** ** The request call: [request_overseerr] *)

(** Values of the request payload, a [dict[str, int | str | list[int]]]. *)
Inductive payload_value : Type :=
| VInt (n : Z)
| VStr (s : string)
| VList (l : list Z).

(** [if seasons]: neither [None] nor the empty list. *)
Definition nonempty (seasons : option (list Z)) : bool :=
  match seasons with
  | Some (_ :: _) => true
  | _ => false
  end.

(** The payload [data] handed to [requests.post]. *)
Definition request_payload (media_id : Z) (media_type : string)
    (seasons : option (list Z)) : gmap string payload_value :=
  let data : gmap string payload_value :=
    <["mediaType" := VStr media_type]> (<["mediaId" := VInt media_id]> ∅) in
  if String.eqb media_type "tv" && nonempty seasons
  then <["seasons" := VList (default [] seasons)]> data
  else data.

(** The response object of [requests.post]; [error_details] is
    [resp.json().get("message")] when that evaluates to a non-empty string. *)
Record post_response : Type := {
  ok : bool;
  post_status_code : Z;
  error_details : option string
}.

(** What the handlers leave behind: the payloads handed to [requests.post],
    the texts set by [query.edit_message_text], and the number of calls of
    [query.answer].  The calls of the chat transport in [button_callback]
    are taken not to raise. *)
Record world : Type := {
  post_calls : list (gmap string payload_value);
  edited : list string;
  answered : nat
}.

Definition log_post (data : gmap string payload_value) (w : world) : world :=
  {| post_calls := post_calls w ++ [data];
     edited := edited w;
     answered := answered w |}.

Definition edit_message_text (msg : string) (w : world) : world :=
  {| post_calls := post_calls w;
     edited := edited w ++ [msg];
     answered := answered w |}.

Definition answer (w : world) : world :=
  {| post_calls := post_calls w;
     edited := edited w;
     answered := S (answered w) |}.

(** The decoded callback data: the arguments of [request_overseerr]. *)
Module Token.
Record t : Type := {
  media_type : string;
  media_id : Z;
  seasons : option (list Z)
}.
End Token.

(** The structured response of the agent. *)
Module OverseerrResponse.
Record t : Type := {
  answer : string;
  action : option string;
  media_id : option Z;
  media_type : option string;
  seasons : option (list Z);
  poster_url : option string
}.
End OverseerrResponse.

(** The two-row inline keyboard: the confirmation button and the
    cancellation button. *)
Record keyboard : Type := {
  button_text : string;
  callback_data : string;
  cancel_text : string;
  cancel_data : string
}.

(** [sorted(seasons)] on integers. *)
Definition sorted (seasons : list Z) : list Z := merge_sort Z.le seasons.

(** The callback data of the confirmation button. *)
Definition seasons_str (media_type : string) (seasons : list Z) : string :=
  match seasons with
  | _ :: _ =>
      if String.eqb media_type "tv"
      then "_" +:+ PyStr.join "-" (map PyStr.str (sorted seasons))
      else ""
  | [] => ""
  end.

Definition request_callback_data (media_type : string) (media_id : Z)
    (seasons : list Z) : string :=
  "request_" +:+ media_type +:+ "_" +:+ PyStr.str media_id
  +:+ seasons_str media_type seasons.

(** The keyboard [handle_message] attaches to its reply. *)
Definition offer_keyboard (structured_output : OverseerrResponse.t)
    : option keyboard :=
  match OverseerrResponse.action structured_output with
  | Some a =>
      if String.eqb a "offer_request" then
        let seasons := default [] (OverseerrResponse.seasons structured_output) in
        match OverseerrResponse.media_id structured_output,
              OverseerrResponse.media_type structured_output with
        | Some media_id, Some media_type =>
            if negb (media_id =? 0) && negb (String.eqb media_type "") then
              let ss := seasons_str media_type seasons in
              Some {| button_text :=
                        if String.eqb ss "" then "Yes, request this " +:+ media_type
                        else "Yes, request season(s) "
                             +:+ PyStr.join ", " (map PyStr.str (sorted seasons));
                      callback_data :=
                        request_callback_data media_type media_id seasons;
                      cancel_text := "No, cancel";
                      cancel_data := "cancel_request" |}
            else None
        | _, _ => None
        end
      else None
  | None => None
  end.

(** The parsing of the callback data in the [try] of [button_callback], up
    to the arguments of the request call. *)
Definition parse_request (callback_data : string) : result Token.t :=
  let parts := PyStr.split "_" callback_data in
  media_type ← PyStr.index parts 1;
  id_part ← PyStr.index parts 2;
  media_id ← PyStr.int id_part;
  if (3 <? length parts)%nat && String.eqb media_type "tv" then
    seasons_part ← PyStr.index parts 3;
    seasons ← mapM PyStr.int
                (List.filter PyStr.isdigit (PyStr.split "-" seasons_part));
    Ok {| Token.media_type := media_type;
          Token.media_id := media_id;
          Token.seasons := match seasons with [] => None | _ => Some seasons end |}
  else
    Ok {| Token.media_type := media_type;
          Token.media_id := media_id;
          Token.seasons := None |}.

(** The decoder of [button_callback]: [None] when the data does not start
    with the request prefix and the [try] is not entered. *)
Definition decode (callback_data : string) : option (result Token.t) :=
  if PyStr.startswith callback_data "request_"
  then Some (parse_request callback_data)
  else None.

Section Callback.

(** The backend reached by [requests.post]. *)
Variable requests_post : gmap string payload_value → result post_response.

Definition request_overseerr (media_id : Z) (media_type : string)
    (seasons : option (list Z)) (w : world) : result string * world :=
  let data := request_payload media_id media_type seasons in
  let w := log_post data w in
  match requests_post data with
  | Raise e => (Raise e, w)
  | Ok resp =>
      if ok resp then
        let season_text :=
          if nonempty seasons
          then " (Seasons: "
               +:+ PyStr.join ", " (map PyStr.str (default [] seasons)) +:+ ")"
          else "" in
        (Ok ("Successfully requested " +:+ media_type +:+ " with ID "
             +:+ PyStr.str media_id +:+ season_text +:+ "."), w)
      else
        let error_message :=
          match error_details resp with
          | Some m => m
          | None => "Status: " +:+ PyStr.str (post_status_code resp)
          end in
        (Ok ("Failed to request " +:+ media_type +:+ " with ID "
             +:+ PyStr.str media_id +:+ ". " +:+ error_message), w)
  end.

(** [update.callback_query.data] is [query_data]; [None] stands for an
    update without a callback query. *)
Definition button_callback (query_data : option (option string)) (w : world)
  : world :=
  match query_data with
  | None => w
  | Some data =>
      let w := answer w in
      match data with
      | None => w
      | Some callback_data =>
          if String.eqb callback_data "" then w
          else
            match decode callback_data with
            | Some (Ok tok) =>
                match request_overseerr (Token.media_id tok)
                        (Token.media_type tok) (Token.seasons tok) w with
                | (Ok result_message, w) =>
                    edit_message_text ("Request result: " +:+ result_message) w
                | (Raise _, w) =>
                    edit_message_text
                      "Sorry, there was an error processing your request." w
                end
            | Some (Raise _) =>
                edit_message_text
                  "Sorry, there was an error processing your request." w
            | None =>
                if String.eqb callback_data "cancel_request"
                then edit_message_text "Request cancelled." w
                else w
            end
      end
  end.

End Callback.

(** ** The message handler: [handle_message] *)

(** The value of [agent_executor.ainvoke]: the contents of the final
    messages and the structured response. *)
Record agent_response : Type := {
  messages : list string;
  structured_response : option OverseerrResponse.t
}.

(** A message handed to the chat transport. *)
Inductive outbound : Type :=
| SendMessage (text : string) (reply_markup : option keyboard)
| ReplyText (text : string) (reply_markup : option keyboard).

Section Message.

(** The agent, as a function of the text of the message, and the chat
    transport: [delivers m] when sending [m] raises nothing. *)
Variable agent_executor : option string → result agent_response.
Variable delivers : outbound → bool.

Definition apology : outbound :=
  ReplyText "Sorry, an error occurred while processing your request." None.

(** The reply and the keyboard computed from the response of the agent. *)
Definition reply_of (response : agent_response)
  : string * option string * option keyboard :=
  match last (messages response) with
  | None =>
      ("Sorry, I encountered an issue processing your request."%string,
       None, None)
  | Some reply_text =>
      match structured_response response with
      | None => (reply_text, None, None)
      | Some structured_output =>
          (reply_text, OverseerrResponse.poster_url structured_output,
           offer_keyboard structured_output)
      end
  end.

(** The messages [handle_message] hands to the transport, in order;
    [message] is the text of [update.message or update.channel_post],
    [None] when the update has neither. *)
Definition handle_message (message : option (option string))
  : list outbound :=
  match message with
  | None => []
  | Some text =>
      match agent_executor text with
      | Raise _ => [apology]
      | Ok response =>
          let '(reply_text, poster_url, keyboard) := reply_of response in
          let plain := ReplyText reply_text keyboard in
          let with_poster :=
            match poster_url with
            | Some url =>
                if String.eqb url "" then None
                else Some (SendMessage (reply_text +:+ String "010" url) keyboard)
            | None => None
            end in
          match with_poster with
          | Some m =>
              if delivers m then [m]
              else if delivers plain then [m; plain]
              else [m; plain; apology]
          | None =>
              if delivers plain then [plain] else [plain; apology]
          end
      end
  end.

End Message.

(** ** Sample data *)

(** A film that is available in 4k, a show without release date and media
    information, and two further films, as the backend would return them. *)
Definition sample_movie : gmap string json :=
  {[ "id" := JInt 438631; "title" := JStr "Dune";
     "releaseDate" := JStr "2021-09-15"; "mediaType" := JStr "movie";
     "mediaInfo" := JObj {[ "status" := JInt 1; "status4k" := JInt 5 ]} ]}.

Definition sample_show : gmap string json :=
  {[ "id" := JInt 77; "name" := JStr "Dune: Prophecy";
     "mediaType" := JStr "tv" ]}.

Definition sample_old_movie : gmap string json :=
  {[ "id" := JInt 841; "title" := JStr "Dune";
     "releaseDate" := JStr "1984-12-14"; "mediaType" := JStr "movie";
     "mediaInfo" := JObj {[ "status" := JInt 2 ]} ]}.

Definition sample_third_movie : gmap string json :=
  {[ "id" := JInt 693134; "title" := JStr "Dune: Part Two";
     "releaseDate" := JStr "2024-02-27"; "mediaType" := JStr "movie" ]}.

Definition sample_results : list json :=
  [JObj sample_movie; JObj sample_show; JObj sample_old_movie;
   JObj sample_third_movie].

Definition sample_body : gmap string json :=
  {[ "results" := JList sample_results ]}.

Definition sample_response : http_response :=
  {| is_success := true; status_code := 200; text := "";
     json_body := Ok (JObj sample_body) |}.

Definition failed_response : http_response :=
  {| is_success := false; status_code := 500;
     text := "Internal Server Error"; json_body := Raise ValueError |}.

(** The structured response that offers seasons 3 and 1 of show 77, and the
    one that offers film 123. *)
Definition offer_show : OverseerrResponse.t :=
  {| OverseerrResponse.answer := "Would you like to request season 3 and 1?";
     OverseerrResponse.action := Some "offer_request"%string;
     OverseerrResponse.media_id := Some 77;
     OverseerrResponse.media_type := Some "tv"%string;
     OverseerrResponse.seasons := Some [3; 1];
     OverseerrResponse.poster_url := None |}.

Definition offer_movie : OverseerrResponse.t :=
  {| OverseerrResponse.answer := "Would you like to request this movie?";
     OverseerrResponse.action := Some "offer_request"%string;
     OverseerrResponse.media_id := Some 123;
     OverseerrResponse.media_type := Some "movie"%string;
     OverseerrResponse.seasons := None;
     OverseerrResponse.poster_url := None |}.

(** ** Notions used in the statements *)

(** The seasons that the callback data of an offer carries: the sorted
    seasons of a show, nothing for a film or for a show without seasons. *)
Definition carried_seasons (media_type : string) (seasons : list Z)
  : option (list Z) :=
  if String.eqb media_type "tv"
  then match seasons with [] => None | _ => Some (sorted seasons) end
  else None.

(** The [seasons] variable of [button_callback] after the parse: [None] for
    an empty list. *)
Definition seasons_or_none (seasons : list Z) : option (list Z) :=
  match seasons with [] => None | _ => Some seasons end.

Definition is_dict (x : json) : bool :=
  match x with JObj _ => true | _ => false end.

(** The keyboard attached to an outbound message. *)
Definition markup_of (m : outbound) : option keyboard :=
  match m with
  | SendMessage _ k => k
  | ReplyText _ k => k
  end.


(** Further sample data: a film whose release date is null, the results of
    a search whose third result is that film, the character U+00B2, and the
    response of an agent that reports a status and offers nothing. *)
Definition sample_undated : gmap string json :=
  {[ "id" := JInt 9; "title" := JStr "Dune (unreleased)";
     "releaseDate" := JNull; "mediaType" := JStr "movie" ]}.

Definition sample_results_undated_third : list json :=
  [JObj sample_movie; JObj sample_old_movie; JObj sample_undated].

Definition sample_results_undated_first : list json :=
  [JObj sample_undated; JObj sample_movie].

Definition response_with (rs : list json) : http_response :=
  {| is_success := true; status_code := 200; text := "";
     json_body := Ok (JObj {[ "results" := JList rs ]}) |}.

Definition response_without_results : http_response :=
  {| is_success := true; status_code := 200; text := "";
     json_body := Ok (JObj ∅) |}.

Definition superscript_two : string :=
  String (Ascii.ascii_of_nat 178) EmptyString.

Definition status_report : agent_response :=
  {| messages := ["The movie Dune (2021) is already available."%string];
     structured_response :=
       Some {| OverseerrResponse.answer :=
                 "The movie Dune (2021) is already available.";
               OverseerrResponse.action := None;
               OverseerrResponse.media_id := None;
               OverseerrResponse.media_type := None;
               OverseerrResponse.seasons := None;
               OverseerrResponse.poster_url := Some "https://image.tmdb.org/x.jpg"%string |} |}.

(** A world in which nothing has happened yet, a backend that accepts every
    request, and the token of seasons 1 and 3 of show 77. *)
Definition fresh_world : world :=
  {| post_calls := []; edited := []; answered := 0 |}.

Definition accepting_backend (data : gmap string payload_value)
  : result post_response :=
  Ok {| ok := true; post_status_code := 201; error_details := None |}.

Definition sample_token : Token.t :=
  {| Token.media_type := "tv"; Token.media_id := 77;
     Token.seasons := Some [1; 3] |}.

(** ** Facts about the string built-ins *)

Section StringFacts.

Import PyStr.

Lemma forallb_str_app p a b :
  forallb_str p (a +:+ b) = forallb_str p a && forallb_str p b.
Proof.
  induction a as [|c a IH]; simpl; [done|].
  rewrite IH. by rewrite andb_assoc.
Qed.

Lemma forallb_str_impl (p q : ascii → bool) s :
  (∀ c, p c = true → q c = true) →
  forallb_str p s = true → forallb_str q s = true.
Proof.
  intros Hpq. induction s as [|c s IH]; simpl; [done|].
  intros [Hc Hs]%andb_true_iff. rewrite (Hpq _ Hc). by apply IH.
Qed.

Lemma split_lacks sep s : lacks sep s = true → split sep s = [s].
Proof.
  unfold lacks. induction s as [|c s IH]; simpl; [done|].
  intros [Hc Hs]%andb_true_iff. apply negb_true_iff in Hc.
  rewrite Hc. by rewrite (IH Hs).
Qed.

Lemma split_app sep a b :
  lacks sep a = true → split sep (a +:+ String sep b) = a :: split sep b.
Proof.
  unfold lacks. induction a as [|c a IH]; simpl.
  - intros _. by rewrite Ascii.eqb_refl.
  - intros [Hc Ha]%andb_true_iff. apply negb_true_iff in Hc.
    rewrite Hc. by rewrite (IH Ha).
Qed.

Lemma join_cons glue x y l :
  join glue (x :: y :: l) = x +:+ glue +:+ join glue (y :: l).
Proof. done. Qed.

Lemma split_join sep l :
  l ≠ [] → Forall (λ s, lacks sep s = true) l →
  split sep (join (String sep "") l) = l.
Proof.
  intros Hne Hl. induction Hl as [|x l Hx Hl IH]; [done|].
  destruct l as [|y l].
  - by apply split_lacks.
  - rewrite join_cons.
    change (String sep "" +:+ ?z) with (String sep z).
    rewrite split_app by done. f_equal. by apply IH.
Qed.

Lemma lacks_decimal sep s :
  is_decimal sep = false → forallb_str is_decimal s = true →
  lacks sep s = true.
Proof.
  intros Hsep. apply forallb_str_impl. intros c Hc.
  apply negb_true_iff. destruct (Ascii.eqb_spec c sep); [congruence|done].
Qed.

Lemma lacks_join sep glue l :
  lacks sep glue = true → Forall (λ s, lacks sep s = true) l →
  lacks sep (join glue l) = true.
Proof.
  intros Hg Hl. induction Hl as [|x l Hx Hl IH]; [done|].
  destruct l as [|y l]; [done|].
  rewrite join_cons. unfold lacks in *.
  rewrite !forallb_str_app, Hx, Hg. by rewrite IH.
Qed.

(** *** The decimal printer and [int] *)

Lemma pretty_N_char_decimal d :
  (d < 10)%N →
  is_decimal (pretty_N_char d) = true
  ∧ digit_value (pretty_N_char d) = Z.of_N d.
Proof.
  intros Hd.
  assert (d = 0 ∨ d = 1 ∨ d = 2 ∨ d = 3 ∨ d = 4 ∨ d = 5 ∨ d = 6 ∨ d = 7
          ∨ d = 8 ∨ d = 9)%N as Hcases by lia.
  repeat (destruct Hcases as [->|Hcases]; [done|]). by subst.
Qed.

Lemma pretty_N_go_decimal x s :
  forallb_str is_decimal s = true →
  forallb_str is_decimal (pretty_N_go x s) = true.
Proof.
  revert s. induction (N.lt_wf_0 x) as [x _ IH]; intros s Hs.
  destruct (decide (x = 0)%N) as [->|Hx]; [done|].
  rewrite pretty_N_go_step by lia. apply IH.
  - apply N.div_lt; lia.
  - simpl. rewrite Hs, andb_true_r.
    apply pretty_N_char_decimal, N.mod_lt. lia.
Qed.

Lemma pretty_N_go_nonempty x s : (0 < x)%N → pretty_N_go x s ≠ "".
Proof.
  revert s. induction (N.lt_wf_0 x) as [x _ IH]; intros s Hx.
  rewrite pretty_N_go_step by done.
  destruct (decide (x `div` 10 = 0)%N) as [->|Hq]; [done|].
  apply IH; [apply N.div_lt; lia|by apply N.neq_0_lt_0].
Qed.

Lemma digits_pretty_N_go x s acc prev :
  ∃ m, digits acc prev (pretty_N_go x s)
       = if decide (x = 0)%N then digits acc prev s
         else digits (acc * m + Z.of_N x) true s.
Proof.
  revert s acc prev. induction (N.lt_wf_0 x) as [x _ IH]; intros s acc prev.
  destruct (decide (x = 0)%N) as [->|Hx]; [by exists 1|].
  rewrite pretty_N_go_step by lia.
  destruct (IH (x `div` 10)%N) with
    (s := String (pretty_N_char (x `mod` 10)) s) (acc := acc) (prev := prev)
    as [m Hm]; [apply N.div_lt; lia|].
  rewrite Hm. clear Hm.
  destruct (pretty_N_char_decimal (x `mod` 10)) as [Hdec Hval];
    [apply N.mod_lt; lia|].
  pose proof (N.div_mod x 10 ltac:(done)) as Hdm.
  destruct (decide (x `div` 10 = 0)%N) as [Hq|Hq]; simpl; rewrite Hdec, Hval.
  - exists 10. f_equal. lia.
  - exists (m * 10). f_equal. lia.
Qed.

Lemma str_pos_decimal p :
  forallb_str is_decimal (pretty (N.pos p)) = true ∧ pretty (N.pos p) ≠ "".
Proof.
  unfold pretty, pretty_N. rewrite decide_False by done. split.
  - by apply pretty_N_go_decimal.
  - by apply pretty_N_go_nonempty.
Qed.

Lemma digits_str_pos p : digits 0 false (pretty (N.pos p)) = Some (Z.pos p).
Proof.
  unfold pretty, pretty_N. rewrite decide_False by done.
  destruct (digits_pretty_N_go (N.pos p) "" 0 false) as [m ->].
  rewrite decide_False by done. simpl. f_equal.
Qed.

Lemma str_decimal n :
  0 ≤ n → forallb_str is_decimal (str n) = true ∧ str n ≠ "".
Proof.
  destruct n as [|p|p]; [done| |lia]. intros _. apply str_pos_decimal.
Qed.

Lemma decimal_head s :
  forallb_str is_decimal s = true → s ≠ "" →
  ∃ c r, s = String c r ∧ is_decimal c = true.
Proof.
  destruct s as [|c r]; [done|]. simpl.
  intros [Hc _]%andb_true_iff _. eauto.
Qed.

Lemma decimal_not_space c : is_decimal c = true → is_int_space c = false.
Proof.
  unfold is_decimal, is_int_space. intros [H1 H2]%andb_true_iff.
  apply Z.leb_le in H1, H2.
  repeat (apply orb_false_iff; split);
    [apply andb_false_iff; right; lia|lia..].
Qed.

Lemma decimal_not_sign c :
  is_decimal c = true → c ≠ "+"%char ∧ c ≠ "-"%char ∧ c ≠ "_"%char.
Proof. intros Hc. repeat split; intros ->; discriminate. Qed.

Lemma str_pos p : str (Z.pos p) = pretty (N.pos p).
Proof. done. Qed.

Lemma str_neg p : str (Z.neg p) = String "-" (pretty (N.pos p)).
Proof. done. Qed.

(** [int] reads back what [str] prints. *)
Lemma int_str n : int (str n) = Ok n.
Proof.
  destruct n as [|p|p]; [done| |].
  - destruct (str_pos_decimal p) as [Hdec Hne].
    destruct (decimal_head _ Hdec Hne) as (c & r & Heq & Hc).
    pose proof (digits_str_pos p) as Hd.
    rewrite str_pos. rewrite Heq in Hd |- *.
    unfold int. simpl skip_space. rewrite (decimal_not_space _ Hc).
    destruct (decimal_not_sign _ Hc) as (Hplus & Hminus & _).
    destruct c as [[] [] [] [] [] [] [] []]; try done; by rewrite Hd.
  - rewrite str_neg. unfold int. simpl skip_space.
    change (is_int_space "-") with false. cbv iota.
    by rewrite digits_str_pos.
Qed.

Lemma isdigit_decimal s :
  forallb_str is_decimal s = true → s ≠ "" → isdigit s = true.
Proof.
  intros Hs Hne. destruct s as [|c r]; [done|].
  unfold isdigit. revert Hs. apply forallb_str_impl.
  intros a Ha. unfold is_digit_char. by rewrite Ha.
Qed.

End StringFacts.

(** ** The callback-data codec *)

Section Codec.

Import PyStr.

Lemma append_nil_r s : s +:+ "" = s.
Proof.
  induction s as [|c s IH]; [done|].
  change (String c (s +:+ "") = String c s). by f_equal.
Qed.

Lemma startswith_app p r : startswith (p +:+ r) p = true.
Proof.
  unfold startswith. induction p as [|c p IH]; simpl; [by destruct r|].
  by destruct (ascii_dec c c).
Qed.

Lemma startswith_inv s p : startswith s p = true → ∃ r, s = p +:+ r.
Proof.
  unfold startswith. revert s. induction p as [|c p IH]; intros s; simpl.
  - intros _. by exists s.
  - destruct s as [|b s]; simpl; [done|].
    destruct (ascii_dec c b) as [->|]; [|done].
    intros [r ->]%IH. by exists r.
Qed.

Lemma str_lacks_underscore n : lacks "_" (str n) = true.
Proof.
  destruct n as [|p|p]; [done| |].
  - rewrite str_pos. apply lacks_decimal; [done|apply str_pos_decimal].
  - rewrite str_neg. unfold lacks. simpl.
    apply (lacks_decimal "_"); [done|apply str_pos_decimal].
Qed.

Lemma str_lacks_dash n : 0 ≤ n → lacks "-" (str n) = true.
Proof. intros Hn. apply lacks_decimal; [done|by apply str_decimal]. Qed.

Lemma mapM_int_str l : mapM int (map str l) = Ok l.
Proof.
  induction l as [|n l IH]; [done|].
  simpl. rewrite int_str. simpl. by rewrite IH.
Qed.

Lemma filter_isdigit_str l :
  Forall (λ n, 0 ≤ n) l → List.filter isdigit (map str l) = map str l.
Proof.
  induction 1 as [|n l Hn Hl IH]; [done|]. simpl.
  destruct (str_decimal n Hn) as [Hdec Hne].
  rewrite (isdigit_decimal _ Hdec Hne). by rewrite IH.
Qed.

(** The segments of a string that starts with the request prefix. *)
Lemma split_request mt tail :
  lacks "_" mt = true →
  split "_" ("request_" +:+ mt +:+ "_" +:+ tail)
  = "request" :: mt :: split "_" tail.
Proof.
  intros Hmt.
  change ("request_" +:+ mt +:+ "_" +:+ tail)
    with ("request" +:+ String "_" (mt +:+ String "_" tail)).
  rewrite split_app by done. by rewrite split_app.
Qed.

Lemma sorted_Permutation seasons : sorted seasons ≡ₚ seasons.
Proof. apply merge_sort_Permutation. Qed.

Lemma sorted_Sorted seasons : Sorted Z.le (sorted seasons).
Proof. apply (Sorted_merge_sort Z.le). Qed.

Lemma sorted_nonempty seasons : seasons ≠ [] → sorted seasons ≠ [].
Proof.
  intros Hne Hnil. apply Hne. apply Permutation_nil_r.
  rewrite <- Hnil. symmetry. apply sorted_Permutation.
Qed.

Lemma sorted_Forall (P : Z → Prop) seasons :
  Forall P seasons → Forall P (sorted seasons).
Proof. intros H. by rewrite sorted_Permutation. Qed.

(** Decoding the callback data of a request without seasons. *)
Lemma decode_plain mt id :
  lacks "_" mt = true →
  decode ("request_" +:+ mt +:+ "_" +:+ str id)
  = Some (Ok {| Token.media_type := mt; Token.media_id := id;
                Token.seasons := None |}).
Proof.
  intros Hmt. unfold decode. rewrite startswith_app.
  unfold parse_request. rewrite split_request by done.
  rewrite split_lacks by apply str_lacks_underscore.
  simpl. rewrite int_str. simpl. done.
Qed.

(** Decoding the callback data of a request for seasons of a show. *)
Lemma decode_seasons id seasons :
  seasons ≠ [] → Forall (λ n, 0 ≤ n) seasons →
  decode (request_callback_data "tv" id seasons)
  = Some (Ok {| Token.media_type := "tv"; Token.media_id := id;
                Token.seasons := Some (sorted seasons) |}).
Proof.
  intros Hne Hpos.
  pose proof (sorted_nonempty _ Hne) as Hsne.
  pose proof (sorted_Forall _ _ Hpos) as Hspos.
  unfold request_callback_data, seasons_str.
  destruct seasons as [|s0 seasons']; [done|].
  set (asc := sorted (s0 :: seasons')) in *.
  change (String.eqb "tv" "tv") with true. cbv iota.
  unfold decode. rewrite startswith_app.
  unfold parse_request. rewrite split_request by done.
  change ("_" +:+ ?z) with (String "_" z).
  rewrite split_app by apply str_lacks_underscore.
  assert (Forall (λ s, lacks "-" s = true) (map str asc)) as Hdash.
  { apply List.Forall_map. revert Hspos. apply List.Forall_impl.
    intros n Hn. by apply str_lacks_dash. }
  assert (Forall (λ s, lacks "_" s = true) (map str asc)) as Hund.
  { apply List.Forall_map, List.Forall_forall. intros n _.
    apply str_lacks_underscore. }
  rewrite split_lacks by (by apply lacks_join).
  simpl. rewrite int_str. simpl.
  rewrite split_join; [|by destruct asc|done].
  rewrite filter_isdigit_str by done.
  rewrite mapM_int_str. simpl. by destruct asc.
Qed.

Lemma int_raises_ValueError s e : int s = Raise e → e = ValueError.
Proof.
  unfold int. destruct (skip_space s) as [|c r]; simpl.
  - by intros [= <-].
  - repeat case_match; by intros [= <-].
Qed.

Lemma mapM_int_raises segs s :
  In s segs → int s = Raise ValueError → mapM int segs = Raise ValueError.
Proof.
  induction segs as [|x segs IH]; [done|]. intros [->|Hin] Hs; simpl.
  - by rewrite Hs.
  - destruct (int x) as [n|e] eqn:Hx; simpl.
    + by rewrite IH.
    + by rewrite (int_raises_ValueError _ _ Hx).
Qed.

Lemma mapM_int_ok segs :
  (∀ s, In s segs → ∃ n, int s = Ok n) → ∃ ns, mapM int segs = Ok ns.
Proof.
  induction segs as [|x segs IH]; intros Hall; [by exists []|].
  destruct (Hall x) as [n Hn]; [by left|].
  destruct IH as [ns Hns]; [intros s Hs; apply Hall; by right|].
  exists (n :: ns). simpl. rewrite Hn. simpl. by rewrite Hns.
Qed.

End Codec.

(** ** Properties of the codec *)

Section CodecClaims.

Import PyStr.

Lemma split_nonempty sep s : ∃ h t, split sep s = h :: t.
Proof.
  induction s as [|c s (h & t & IH)]; simpl; [by eauto|].
  destruct (Ascii.eqb c sep); [by eauto|]. rewrite IH. by eauto.
Qed.

(** C1: a request for one to five distinct seasons between 1 and 99 of a
    show with a positive id survives the round trip: the keyboard built by
    [handle_message] carries callback data that [button_callback] decodes
    to the same media type, the same id, and the same seasons up to
    order. *)
Theorem token_roundtrip (so : OverseerrResponse.t) (media_id : Z)
    (seasons : list Z) :
  OverseerrResponse.action so = Some "offer_request"%string →
  OverseerrResponse.media_type so = Some "tv"%string →
  OverseerrResponse.media_id so = Some media_id →
  OverseerrResponse.seasons so = Some seasons →
  0 < media_id →
  (1 ≤ length seasons ≤ 5)%nat →
  NoDup seasons →
  Forall (λ n, 1 ≤ n ≤ 99) seasons →
  ∃ kb decoded,
    offer_keyboard so = Some kb
    ∧ decode (callback_data kb)
      = Some (Ok {| Token.media_type := "tv"; Token.media_id := media_id;
                    Token.seasons := Some decoded |})
    ∧ decoded ≡ₚ seasons
    ∧ ∀ n, n ∈ decoded ↔ n ∈ seasons.
Proof.
  intros Hact Htype Hid Hseasons Hpos [Hlen _] _ Hrange.
  assert (seasons ≠ []) as Hne by (destruct seasons; [simpl in Hlen; lia|done]).
  assert (Forall (λ n, 0 ≤ n) seasons) as Hnonneg.
  { revert Hrange. apply List.Forall_impl. lia. }
  unfold offer_keyboard. rewrite Hact, Htype, Hid, Hseasons.
  change (String.eqb "offer_request" "offer_request") with true.
  change (String.eqb "tv" "") with false.
  assert ((media_id =? 0) = false) as -> by lia.
  eexists _, (sorted seasons). split; [done|]. cbn [callback_data default].
  split; [by apply decode_seasons|].
  split; [apply sorted_Permutation|].
  intros n. by rewrite sorted_Permutation.
Qed.

(** C6: the callback data of the confirmation button is
    ["request_" + media_type + "_" + media_id], followed by ["_"] and the
    seasons in ascending order joined by ["-"] exactly when the media type
    is tv and there are seasons. *)
Theorem callback_data_format (so : OverseerrResponse.t) (media_type : string)
    (media_id : Z) :
  OverseerrResponse.action so = Some "offer_request"%string →
  OverseerrResponse.media_type so = Some media_type →
  OverseerrResponse.media_id so = Some media_id →
  media_type = "movie"%string ∨ media_type = "tv"%string →
  0 < media_id →
  ∃ kb,
    offer_keyboard so = Some kb
    ∧ Sorted Z.le (sorted (default [] (OverseerrResponse.seasons so)))
    ∧ sorted (default [] (OverseerrResponse.seasons so))
      ≡ₚ default [] (OverseerrResponse.seasons so)
    ∧ callback_data kb
      = "request_" +:+ media_type +:+ "_" +:+ str media_id
        +:+ (if decide (media_type = "tv"%string
                        ∧ default [] (OverseerrResponse.seasons so) ≠ [])
             then "_" +:+ join "-"
                    (map str (sorted (default [] (OverseerrResponse.seasons so))))
             else "").
Proof.
  intros Hact Htype Hid Hmt Hpos.
  unfold offer_keyboard. rewrite Hact, Htype, Hid.
  change (String.eqb "offer_request" "offer_request") with true.
  assert ((media_id =? 0) = false) as -> by lia.
  assert (String.eqb media_type "" = false) as ->.
  { by destruct Hmt as [-> | ->]. }
  eexists. split; [done|]. cbn [callback_data].
  split; [apply sorted_Sorted|]. split; [apply sorted_Permutation|].
  unfold request_callback_data, seasons_str. do 4 f_equal.
  destruct (default [] (OverseerrResponse.seasons so)) as [|s0 l].
  - rewrite decide_False; [done|]. by intros [_ ?].
  - destruct Hmt as [-> | ->].
    + rewrite decide_False; [done|]. by intros [? _].
    + rewrite decide_True; done.
Qed.

(** C2, as the code has it: no token is decoded from a string that does not
    start with ["request_"].  A string that starts with it is rejected in
    three cases only: it has no third segment; [int] does not accept the
    third segment; or its media type is tv, it has a fourth segment, and a
    piece of that segment passes [isdigit] and is refused by [int].
    Otherwise it is accepted: the second segment is taken as the media type
    whatever it is, the id may be any integer, a fourth segment is ignored
    when the media type is not tv, and on a tv token the pieces that
    [isdigit] refuses are skipped. *)
Theorem decode_rejects (s : string) :
  (startswith s "request_" = false → decode s = None)
  ∧ (startswith s "request_" = true →
     ∃ mt rest,
       split "_" s = "request"%string :: mt :: rest
       ∧ match rest with
         | [] => decode s = Some (Raise IndexError)
         | id_part :: more =>
             match int id_part with
             | Raise e => decode s = Some (Raise e)
             | Ok id =>
                 match more with
                 | [] =>
                     decode s
                     = Some (Ok {| Token.media_type := mt;
                                   Token.media_id := id;
                                   Token.seasons := None |})
                 | seasons_part :: _ =>
                     if String.eqb mt "tv" then
                       decode s
                       = Some (seasons ←
                                 mapM int
                                   (List.filter isdigit
                                      (split "-" seasons_part));
                               Ok {| Token.media_type := mt;
                                     Token.media_id := id;
                                     Token.seasons := seasons_or_none seasons |})
                       ∧ ((∃ piece,
                             In piece (split "-" seasons_part)
                             ∧ isdigit piece = true
                             ∧ int piece = Raise ValueError) →
                          decode s = Some (Raise ValueError))
                       ∧ ((∀ piece,
                             In piece (split "-" seasons_part) →
                             isdigit piece = true →
                             ∃ n, int piece = Ok n) →
                          ∃ seasons,
                            decode s
                            = Some (Ok {| Token.media_type := mt;
                                          Token.media_id := id;
                                          Token.seasons := seasons |}))
                     else
                       decode s
                       = Some (Ok {| Token.media_type := mt;
                                     Token.media_id := id;
                                     Token.seasons := None |})
                 end
             end
         end).
Proof.
  unfold decode. split; [by intros ->|]. intros Hpre. rewrite Hpre.
  destruct (startswith_inv _ _ Hpre) as [r ->].
  destruct (split_nonempty "_" r) as (mt & rest & Hr).
  assert (split "_" ("request_" +:+ r) = "request"%string :: mt :: rest) as Hparts.
  { change ("request_" +:+ r) with ("request" +:+ String "_" r).
    rewrite split_app by done. by rewrite Hr. }
  exists mt, rest. split; [done|].
  unfold parse_request. rewrite Hparts.
  destruct rest as [|id_part more]; [done|]. simpl.
  destruct (int id_part) as [id|e]; [|done]. simpl.
  destruct more as [|seasons_part more]; [done|]. simpl.
  destruct (String.eqb mt "tv"); [|done].
  set (pieces := List.filter isdigit (split "-" seasons_part)).
  split_and!.
  - done.
  - intros (piece & Hin & Hdig & Hraise).
    rewrite (mapM_int_raises pieces piece); [done| |done].
    apply filter_In. by split.
  - intros Hall. destruct (mapM_int_ok pieces) as [ns Hns].
    { intros piece [Hin Hdig]%filter_In. by apply Hall. }
    rewrite Hns. by eexists.
Qed.

End CodecClaims.

(** ** Properties of the request call and of the callback handler *)

Section CallbackClaims.

Variable requests_post : gmap string payload_value → result post_response.

Lemma request_overseerr_posts media_id media_type seasons w :
  post_calls (request_overseerr requests_post media_id media_type seasons w).2
  = post_calls w ++ [request_payload media_id media_type seasons].
Proof.
  unfold request_overseerr.
  destruct (requests_post _) as [resp|e]; [destruct (ok resp)|]; done.
Qed.

Lemma payload_with_seasons (media_id : Z) (media_type : string) ss :
  let data : gmap string payload_value :=
    <["seasons" := VList ss]>
      (<["mediaType" := VStr media_type]> (<["mediaId" := VInt media_id]> ∅)) in
  data !! "mediaId" = Some (VInt media_id)
  ∧ data !! "mediaType" = Some (VStr media_type)
  ∧ data !! "seasons" = Some (VList ss)
  ∧ dom data = {["mediaId"; "mediaType"; "seasons"]}.
Proof.
  intros data. subst data. split_and!.
  - rewrite !lookup_insert_ne by done. by rewrite lookup_insert_eq.
  - rewrite lookup_insert_ne by done. by rewrite lookup_insert_eq.
  - by rewrite lookup_insert_eq.
  - rewrite !dom_insert_L. set_solver.
Qed.

Lemma payload_without_seasons (media_id : Z) (media_type : string) :
  let data : gmap string payload_value :=
    <["mediaType" := VStr media_type]> (<["mediaId" := VInt media_id]> ∅) in
  data !! "mediaId" = Some (VInt media_id)
  ∧ data !! "mediaType" = Some (VStr media_type)
  ∧ data !! "seasons" = None
  ∧ dom data = {["mediaId"; "mediaType"]}.
Proof.
  intros data. subst data. split_and!.
  - rewrite !lookup_insert_ne by done. by rewrite lookup_insert_eq.
  - by rewrite lookup_insert_eq.
  - by rewrite !lookup_insert_ne.
  - rewrite !dom_insert_L. set_solver.
Qed.

Lemma request_payload_cases media_id media_type seasons :
  (media_type = "tv"%string ∧ (∃ n l, seasons = Some (n :: l))
   ∧ request_payload media_id media_type seasons
     = <["seasons" := VList (default [] seasons)]>
         (<["mediaType" := VStr media_type]>
            (<["mediaId" := VInt media_id]> ∅)))
  ∨ (¬ (media_type = "tv"%string ∧ ∃ n l, seasons = Some (n :: l))
     ∧ request_payload media_id media_type seasons
       = <["mediaType" := VStr media_type]>
           (<["mediaId" := VInt media_id]> ∅)).
Proof.
  unfold request_payload.
  destruct (String.eqb_spec media_type "tv") as [->|Hmt];
    destruct seasons as [[|n l]|]; simpl.
  all: try (right; split; [|done]; intros [? (? & ? & ?)]; congruence).
  left. eauto.
Qed.

(** C8: the payload handed to the backend has the keys [mediaId] and
    [mediaType], and in addition the key [seasons], bound to the seasons,
    exactly when the media type is tv and the seasons are a non-empty
    list. *)
Theorem request_payload_shape (media_id : Z) (media_type : string)
    (seasons : option (list Z)) (w : world) :
  ∃ data,
    post_calls (request_overseerr requests_post media_id media_type seasons w).2
    = post_calls w ++ [data]
    ∧ data !! "mediaId" = Some (VInt media_id)
    ∧ data !! "mediaType" = Some (VStr media_type)
    ∧ (is_Some (data !! "seasons")
       ↔ media_type = "tv"%string ∧ ∃ n l, seasons = Some (n :: l))
    ∧ (∀ v, data !! "seasons" = Some v → ∃ l, seasons = Some l ∧ v = VList l)
    ∧ dom data ⊆ {["mediaId"; "mediaType"; "seasons"]}.
Proof.
  exists (request_payload media_id media_type seasons).
  split; [apply request_overseerr_posts|].
  destruct (request_payload_cases media_id media_type seasons)
    as [(Htv & (n & l & Hss) & ->)|[Hno ->]].
  - destruct (payload_with_seasons media_id media_type (default [] seasons))
      as (Hid & Hmt & Hs & Hdom).
    rewrite Hid, Hmt, Hs, Hdom. split_and!.
    + done.
    + done.
    + split; [by eauto|by eauto].
    + intros v [= <-]. exists (n :: l). by rewrite Hss.
    + done.
  - destruct (payload_without_seasons media_id media_type)
      as (Hid & Hmt & Hs & Hdom).
    rewrite Hid, Hmt, Hs, Hdom. split_and!.
    + done.
    + done.
    + split; [by intros [? ?]|done].
    + done.
    + apply union_subseteq_l.
Qed.

(** C9: on the cancellation token the handler sets the text
    "Request cancelled." and hands nothing to the backend, whatever the
    backend is. *)
Theorem cancel_is_effect_free (w : world) :
  post_calls (button_callback requests_post (Some (Some "cancel_request"%string)) w)
  = post_calls w
  ∧ edited (button_callback requests_post (Some (Some "cancel_request"%string)) w)
    = edited w ++ ["Request cancelled."%string]
  ∧ ∀ other_post,
      button_callback other_post (Some (Some "cancel_request"%string)) w
      = button_callback requests_post (Some (Some "cancel_request"%string)) w.
Proof. done. Qed.

End CallbackClaims.

(** ** Properties of the catalogue search *)

Section SearchFacts.

Import PyStr.

Lemma eq_int_code_at (mi : gmap string json) key n :
  eq_int (default JNull (mi !! key)) n
  = bool_decide (code_at (JObj mi) key = Some n).
Proof.
  unfold code_at. destruct (mi !! key) as [[| |m| | |]|]; simpl; try done.
  destruct (Z.eqb_spec m n) as [->|Hne].
  - by rewrite bool_decide_true.
  - rewrite bool_decide_false; [done|congruence].
Qed.

Lemma in_2_3_4_code_at (mi : gmap string json) key :
  in_2_3_4 (default JNull (mi !! key))
  = bool_decide (code_at (JObj mi) key ∈ [Some 2; Some 3; Some 4]).
Proof.
  unfold in_2_3_4. rewrite !eq_int_code_at, <- !bool_decide_or.
  apply bool_decide_ext. rewrite !elem_of_cons, elem_of_nil. tauto.
Qed.

(** The status derived from a [mediaInfo] that is a dict or false. *)
Lemma derive_status_spec media_info :
  dict_or_false media_info = true →
  derive_status media_info
  = Ok (if bool_decide (code_at media_info "status" = Some 5
                        ∨ code_at media_info "status4k" = Some 5)
        then "Available"%string
        else if bool_decide
                  (code_at media_info "status" ∈ [Some 2; Some 3; Some 4]
                   ∨ code_at media_info "status4k" ∈ [Some 2; Some 3; Some 4])
             then "Requested"%string
             else "Not Requested"%string).
Proof.
  intros Hok. unfold derive_status.
  destruct media_info as [| | | | |mi];
    try (apply negb_true_iff in Hok; by rewrite Hok).
  destruct (truthy (JObj mi)) eqn:Htruthy.
  - unfold get. cbn [mbind result_bind].
    rewrite !bool_decide_or, <- !eq_int_code_at, <- !in_2_3_4_code_at.
    by repeat case_match.
  - simpl in Htruthy. apply negb_false_iff, Nat.eqb_eq in Htruthy.
    apply map_size_empty_iff in Htruthy. subst mi.
    unfold code_at. by rewrite !lookup_empty.
Qed.

Lemma Forall_list_filter {A} (P : A → Prop) (f : A → bool) l :
  Forall P l → Forall P (List.filter f l).
Proof.
  induction 1 as [|x l Hx Hl IH]; simpl; [done|].
  destruct (f x); [by constructor|done].
Qed.

Lemma Forall_list_filter_true {A} (f : A → bool) l :
  Forall (λ x, f x = true) (List.filter f l).
Proof.
  induction l as [|x l IH]; simpl; [done|].
  destruct (f x) eqn:Hx; [by constructor|done].
Qed.

Lemma slice_to_prefix n s :
  String.length (slice_to n s) = Nat.min n (String.length s)
  ∧ ∃ rest, s = slice_to n s +:+ rest.
Proof.
  revert s. induction n as [|n IH]; intros s.
  - split; [done|by exists s].
  - destruct s as [|c s]; [split; [done|by exists ""%string]|].
    destruct (IH s) as [Hlen [rest Hrest]]. split.
    + simpl. by rewrite Hlen.
    + exists rest. cbn [slice_to].
      change (String c s = String c (slice_to n s +:+ rest)). by f_equal.
Qed.

Lemma filter_media_type_spec media_type rs :
  Forall (λ r, well_formed r = true) rs →
  filter_media_type media_type rs
  = Ok (List.filter (has_media_type media_type) rs).
Proof.
  induction 1 as [|r rs Hr Hrs IH]; [done|].
  destruct r as [| | | | |o]; try done.
  cbn [filter_media_type get List.filter has_media_type mbind result_bind].
  rewrite IH. cbn [mbind result_bind]. by case_match.
Qed.

Lemma chars_length s : length (chars s) = String.length s.
Proof. induction s as [|c s IH]; simpl; [done|by rewrite IH]. Qed.

(** Iterating over a slice of two yields at most two elements. *)
Lemma iterate_slice_length x y rs :
  slice x 2 = Ok y → iterate y = Ok rs → (length rs ≤ 2)%nat.
Proof.
  destruct x as [| | |s|l|]; try done; intros [= <-] [= <-].
  - rewrite chars_length. destruct s as [|c [|c' r]]; simpl; lia.
  - rewrite length_take. lia.
Qed.

End SearchFacts.

Section ProcessClaims.

Import PyStr.

Variable py_repr : json → string.

(** A well-formed result is processed without raising. *)
Lemma process_result_wf (o : gmap string json) :
  well_formed (JObj o) = true →
  ∃ st yr,
    derive_status (default JNull (o !! "mediaInfo")) = Ok st
    ∧ slice (default (JStr "") (o !! "releaseDate")) 4 = Ok yr
    ∧ process_result py_repr (JObj o)
      = Ok {| title := if truthy (default JNull (o !! "title"))
                       then default JNull (o !! "title")
                       else default JNull (o !! "name");
              year := yr;
              media_id := default JNull (o !! "id");
              media_type := default JNull (o !! "mediaType");
              overview := default JNull (o !! "overview");
              status := st;
              poster_url :=
                if truthy (default JNull (o !! "posterPath"))
                then JStr (IMAGE_TMDB_URL
                           +:+ format py_repr (default JNull (o !! "posterPath")))
                else JNull |}.
Proof.
  unfold well_formed. intros [Hmi Hrd]%andb_true_iff.
  rewrite (derive_status_spec _ Hmi).
  assert (∃ yr, slice (default (JStr "") (o !! "releaseDate")) 4 = Ok yr)
    as [yr Hyr].
  { destruct (default (JStr "") (o !! "releaseDate")); try done; by eauto. }
  eexists _, yr. split; [done|]. split; [done|].
  unfold process_result, get. cbn [mbind result_bind].
  rewrite (derive_status_spec _ Hmi), Hyr. done.
Qed.

Lemma process_loop_spec rs :
  Forall (λ r, well_formed r = true) rs →
  ∀ processed, ∃ cs,
    process_loop py_repr rs processed = Ok (processed ++ cs)
    ∧ Forall2 (λ r c, process_result py_repr r = Ok c) rs cs.
Proof.
  induction 1 as [|r rs Hr Hrs IH]; intros processed.
  - exists []. by rewrite app_nil_r.
  - destruct r as [| | | | |o]; try done.
    destruct (process_result_wf o Hr) as (st & yr & _ & _ & Hc).
    set (c := Build_candidate _ _ _ _ _ _ _) in Hc.
    cbn [process_loop]. rewrite Hc. cbn [mbind result_bind].
    destruct (IH (processed ++ [c])) as (cs & Hloop & Hcs).
    exists (c :: cs). rewrite Hloop, <- app_assoc. split; [done|].
    by constructor.
Qed.

Lemma candidate_media_type requested r c :
  well_formed r = true → has_media_type requested r = true →
  process_result py_repr r = Ok c → media_type c = JStr requested.
Proof.
  intros Hwf Htype Hc. destruct r as [| | | | |o]; try done.
  destruct (process_result_wf o Hwf) as (st & yr & _ & _ & Heq).
  rewrite Heq in Hc. injection Hc as <-. cbn [media_type].
  unfold has_media_type, eq_str in Htype.
  destruct (default JNull (o !! "mediaType")) as [| | |t| |]; try done.
  by apply String.eqb_eq in Htype as ->.
Qed.

Lemma candidates_media_type requested l cs :
  Forall (λ r, well_formed r = true ∧ has_media_type requested r = true) l →
  Forall2 (λ r c, process_result py_repr r = Ok c) l cs →
  Forall (λ c, media_type c = JStr requested) cs.
Proof.
  intros Hl Hcs. induction Hcs as [|r c l k Hrc Hlk IH]; [done|].
  apply Forall_cons in Hl as [[Hr1 Hr2] Hl].
  constructor; [by eapply candidate_media_type|by apply IH].
Qed.

(** C4: the status of a processed result is "Available" when one of the two
    codes of its [mediaInfo] is 5, otherwise "Requested" when one of them is
    2, 3 or 4, otherwise "Not Requested"; a code that is missing or null
    counts as no code. *)
Theorem status_derivation (o : gmap string json) :
  well_formed (JObj o) = true →
  ∃ c,
    process_result py_repr (JObj o) = Ok c
    ∧ status c
      = if bool_decide
             (code_at (default JNull (o !! "mediaInfo")) "status" = Some 5
              ∨ code_at (default JNull (o !! "mediaInfo")) "status4k" = Some 5)
        then "Available"%string
        else if bool_decide
                  (code_at (default JNull (o !! "mediaInfo")) "status"
                   ∈ [Some 2; Some 3; Some 4]
                   ∨ code_at (default JNull (o !! "mediaInfo")) "status4k"
                     ∈ [Some 2; Some 3; Some 4])
             then "Requested"%string
             else "Not Requested"%string.
Proof.
  intros Hwf. destruct (process_result_wf o Hwf) as (st & yr & Hst & _ & Hc).
  eexists. split; [exact Hc|]. cbn [status].
  apply andb_true_iff in Hwf as [Hmi _].
  rewrite (derive_status_spec _ Hmi) in Hst. by injection Hst as <-.
Qed.

(** C10: the year of a processed result is the first four characters of its
    [releaseDate] string, whatever they are, and the empty string when the
    result has no [releaseDate]. *)
Theorem year_of_release_date (o : gmap string json) :
  well_formed (JObj o) = true →
  ∃ c,
    process_result py_repr (JObj o) = Ok c
    ∧ (∀ s, o !! "releaseDate" = Some (JStr s) →
         year c = JStr (slice_to 4 s)
         ∧ String.length (slice_to 4 s) = Nat.min 4 (String.length s)
         ∧ ∃ rest, s = slice_to 4 s +:+ rest)
    ∧ (o !! "releaseDate" = None → year c = JStr "").
Proof.
  intros Hwf. destruct (process_result_wf o Hwf) as (st & yr & _ & Hyr & Hc).
  eexists. split; [exact Hc|]. cbn [year]. split.
  - intros s Hs. rewrite Hs in Hyr. injection Hyr as <-.
    split; [done|]. apply slice_to_prefix.
  - intros Hnone. rewrite Hnone in Hyr. by injection Hyr as <-.
Qed.

Lemma process_loop_length rs processed cs :
  process_loop py_repr rs processed = Ok cs →
  length cs = (length processed + length rs)%nat.
Proof.
  revert processed. induction rs as [|r rs IH]; intros processed; simpl.
  - intros [= <-]. lia.
  - destruct (process_result py_repr r) as [c|e]; [|done]. simpl.
    intros Hcs%IH. rewrite Hcs, length_app. simpl. lia.
Qed.

End ProcessClaims.

Section SearchClaims.

Variable py_repr : json → string.
Variable quote_plus : string → string.
Variable httpx_get : string → result http_response.

Lemma search_failure query requested resp :
  httpx_get (quote_plus query) = Ok resp → is_success resp = false →
  search_overseerr py_repr quote_plus httpx_get query requested
  = Ok [ErrorText (text resp)].
Proof.
  intros Hget Hfail. unfold search_overseerr.
  rewrite Hget. cbn [mbind result_bind]. by rewrite Hfail.
Qed.

(** X19: whatever a successful response holds, a search that returns,
    returns at most two items. *)
Lemma search_at_most_two query requested resp items :
  httpx_get (quote_plus query) = Ok resp → is_success resp = true →
  search_overseerr py_repr quote_plus httpx_get query requested = Ok items →
  (length items ≤ 2)%nat.
Proof.
  intros Hget Hsucc. unfold search_overseerr.
  rewrite Hget. cbn [mbind result_bind]. rewrite Hsucc.
  destruct (json_body resp) as [body|]; [|done]. cbn [mbind result_bind].
  destruct (get body "results" (JList [])) as [results|]; [|done].
  cbn [mbind result_bind].
  destruct (if negb (String.eqb requested "") then _ else _)
    as [results'|]; [|done].
  cbn [mbind result_bind].
  destruct (slice results' 2) as [first_two|] eqn:Hslice; [|done].
  cbn [mbind result_bind].
  destruct (iterate first_two) as [rs|] eqn:Hiter; [|done].
  cbn [mbind result_bind].
  destruct (process_loop py_repr rs []) as [cs|] eqn:Hloop; [|done].
  cbn [mbind result_bind]. intros [= <-].
  rewrite length_map, (process_loop_length _ _ _ _ Hloop). simpl.
  by eapply iterate_slice_length.
Qed.

(** C7: on a successful response the search returns the processed forms of
    the first two results, in the order of the backend, among those of the
    requested media type (among all of them when no type is requested): at
    most two candidates, each of the requested type. *)
Theorem search_truncation (query requested : string) (resp : http_response)
    (body : gmap string json) (rs : list json) :
  httpx_get (quote_plus query) = Ok resp →
  is_success resp = true →
  json_body resp = Ok (JObj body) →
  body !! "results" = Some (JList rs) →
  Forall (λ r, well_formed r = true) rs →
  ∃ cs,
    search_overseerr py_repr quote_plus httpx_get query requested
    = Ok (map Candidate cs)
    ∧ (length cs ≤ 2)%nat
    ∧ Forall2 (λ r c, process_result py_repr r = Ok c)
        (take 2 (if String.eqb requested ""
                 then rs
                 else List.filter (has_media_type requested) rs))
        cs
    ∧ (requested ≠ ""%string → Forall (λ c, media_type c = JStr requested) cs).
Proof.
  intros Hget Hsucc Hbody Hres Hwf.
  set (kept := if String.eqb requested "" then rs
               else List.filter (has_media_type requested) rs).
  assert (Forall (λ r, well_formed r = true) kept) as Hkept.
  { subst kept. destruct (String.eqb requested ""); [done|].
    by apply Forall_list_filter. }
  assert (Forall (λ r, well_formed r = true) (take 2 kept)) as Htake
    by by apply Forall_take.
  destruct (process_loop_spec py_repr (take 2 kept) Htake []) as (cs & Hloop & Hcs).
  exists cs. split_and!.
  - unfold search_overseerr. rewrite Hget. cbn [mbind result_bind].
    rewrite Hsucc, Hbody. cbn [mbind result_bind get]. rewrite Hres.
    cbn [default from_option id]. clear Hcs Htake Hkept. revert Hloop. subst kept.
    destruct (String.eqb requested ""); intros Hloop;
      cbn [negb iterate mbind result_bind].
    + cbn [slice mbind result_bind iterate]. by rewrite Hloop.
    + rewrite (filter_media_type_spec _ _ Hwf).
      cbn [slice mbind result_bind iterate]. by rewrite Hloop.
  - rewrite <- (Forall2_length _ _ _ Hcs), length_take. lia.
  - done.
  - intros Hreq. apply String.eqb_neq in Hreq. subst kept. rewrite Hreq in *.
    assert (Forall (λ r, well_formed r = true ∧ has_media_type requested r = true)
              (take 2 (List.filter (has_media_type requested) rs))) as Hleft.
    { apply Forall_take, Forall_and. split; [done|].
      apply Forall_list_filter_true. }
    by eapply candidates_media_type.
Qed.

End SearchClaims.

(** ** The claims on sample data *)

Example int_examples :
  PyStr.int "123" = Ok 123 ∧ PyStr.int " +1 " = Ok 1 ∧ PyStr.int "-0" = Ok 0
  ∧ PyStr.int "007" = Ok 7 ∧ PyStr.int "1_0" = Ok 10
  ∧ PyStr.int "" = Raise ValueError ∧ PyStr.int "1__2" = Raise ValueError
  ∧ PyStr.int "_1" = Raise ValueError ∧ PyStr.int "1_" = Raise ValueError
  ∧ PyStr.int "+ 1" = Raise ValueError ∧ PyStr.int "1 2" = Raise ValueError
  ∧ PyStr.int "--1" = Raise ValueError.
Proof. repeat split; reflexivity. Qed.

Example split_examples :
  PyStr.split "_" "a_b__c_" = ["a"; "b"; ""; "c"; ""]%string
  ∧ PyStr.split "_" "" = [""%string]
  ∧ PyStr.split "_" "request_" = ["request"; ""]%string
  ∧ PyStr.join "-" ["1"; "3"]%string = "1-3"%string
  ∧ PyStr.slice_to 4 "2023-05-01" = "2023"%string
  ∧ PyStr.slice_to 4 "ab" = "ab"%string
  ∧ PyStr.str (-5) = "-5"%string ∧ PyStr.str 0 = "0"%string
  ∧ PyStr.str 77 = "77"%string.
Proof. repeat split; reflexivity. Qed.

(** The callback data of the two sample offers, and what the decoder makes
    of them. *)
Example callback_data_examples :
  callback_data <$> offer_keyboard offer_movie = Some "request_movie_123"%string
  ∧ callback_data <$> offer_keyboard offer_show = Some "request_tv_77_1-3"%string
  ∧ decode "request_movie_123"
    = Some (Ok {| Token.media_type := "movie"; Token.media_id := 123;
                  Token.seasons := None |})
  ∧ decode "request_tv_77_1-3"
    = Some (Ok {| Token.media_type := "tv"; Token.media_id := 77;
                  Token.seasons := Some [1; 3] |})
  ∧ decode "cancel_request" = None.
Proof. repeat split; reflexivity. Qed.

(** The four combinations of status codes named by the specification. *)
Example status_examples :
  derive_status (JObj {[ "status" := JInt 5 ]}) = Ok "Available"%string
  ∧ derive_status (JObj {[ "status" := JInt 2; "status4k" := JNull ]})
    = Ok "Requested"%string
  ∧ derive_status (JObj {[ "status" := JNull; "status4k" := JNull ]})
    = Ok "Not Requested"%string
  ∧ derive_status JNull = Ok "Not Requested"%string
  ∧ derive_status (JObj {[ "status" := JInt 1; "status4k" := JInt 5 ]})
    = Ok "Available"%string.
Proof. repeat split; reflexivity. Qed.

(** Pressing the confirmation button of the sample show hands one payload to
    the backend, for the seasons in ascending order. *)
Example confirm_posts_request :
  button_callback
    (λ _, Ok {| ok := true; post_status_code := 201; error_details := None |})
    (Some (Some "request_tv_77_1-3"%string))
    {| post_calls := []; edited := []; answered := 0 |}
  = {| post_calls :=
         [<["seasons" := VList [1; 3]]>
            (<["mediaType" := VStr "tv"]> (<["mediaId" := VInt 77]> ∅))];
       edited :=
         ["Request result: Successfully requested tv with ID 77 (Seasons: 1, 3)."%string];
       answered := 1 |}.
Proof. reflexivity. Qed.

Lemma token_roundtrip_witness :
  ∃ kb decoded,
    offer_keyboard offer_show = Some kb
    ∧ decode (callback_data kb)
      = Some (Ok {| Token.media_type := "tv"; Token.media_id := 77;
                    Token.seasons := Some decoded |})
    ∧ decoded ≡ₚ [3; 1]
    ∧ ∀ n, n ∈ decoded ↔ n ∈ [3; 1].
Proof.
  apply (token_roundtrip offer_show 77 [3; 1]);
    [reflexivity|reflexivity|reflexivity|reflexivity|lia|simpl; lia| |].
  - apply (bool_decide_unpack _). vm_compute. exact I.
  - apply (bool_decide_unpack _). vm_compute. exact I.
Defined.

Lemma callback_data_format_witness :
  ∃ kb,
    offer_keyboard offer_show = Some kb
    ∧ Sorted Z.le (sorted [3; 1])
    ∧ sorted [3; 1] ≡ₚ [3; 1]
    ∧ callback_data kb = "request_tv_77_1-3"%string.
Proof.
  apply (callback_data_format offer_show "tv" 77);
    [reflexivity|reflexivity|reflexivity|by right|lia].
Defined.

(** C2, as the specification has it, fails: the decoder accepts an id that is
    zero or negative, a media type that is neither movie nor tv, and a
    seasons segment on a movie. *)
Lemma decode_accepts_unvalidated :
  decode "request_movie_0"
  = Some (Ok {| Token.media_type := "movie"; Token.media_id := 0;
                Token.seasons := None |})
  ∧ decode "request_movie_-5"
    = Some (Ok {| Token.media_type := "movie"; Token.media_id := -5;
                  Token.seasons := None |})
  ∧ decode "request_game_7"
    = Some (Ok {| Token.media_type := "game"; Token.media_id := 7;
                  Token.seasons := None |})
  ∧ decode "request_movie_7_1-2"
    = Some (Ok {| Token.media_type := "movie"; Token.media_id := 7;
                  Token.seasons := None |}).
Proof. repeat split; reflexivity. Qed.

Lemma decode_rejects_witness :
  decode "cancel_request" = None
  ∧ decode "request_movie" = Some (Raise IndexError)
  ∧ decode "request_movie_abc" = Some (Raise ValueError)
  ∧ decode "request_game_0_1-2"
    = Some (Ok {| Token.media_type := "game"; Token.media_id := 0;
                  Token.seasons := None |})
  ∧ decode ("request_tv_5_" +:+ superscript_two) = Some (Raise ValueError)
  ∧ ∃ seasons,
      decode "request_tv_5_1-x-3"
      = Some (Ok {| Token.media_type := "tv"; Token.media_id := 5;
                    Token.seasons := seasons |}).
Proof.
  split_and!.
  - by apply (decode_rejects "cancel_request").
  - destruct (decode_rejects "request_movie") as [_ H].
    destruct (H eq_refl) as (mt & rest & [= <- <-] & Hd). exact Hd.
  - destruct (decode_rejects "request_movie_abc") as [_ H].
    destruct (H eq_refl) as (mt & rest & [= <- <-] & Hd). exact Hd.
  - destruct (decode_rejects "request_game_0_1-2") as [_ H].
    destruct (H eq_refl) as (mt & rest & [= <- <-] & Hd). exact Hd.
  - destruct (decode_rejects ("request_tv_5_" +:+ superscript_two)) as [_ H].
    destruct (H eq_refl) as (mt & rest & [= <- <-] & Hd).
    destruct Hd as (_ & Hraise & _). apply Hraise.
    exists superscript_two. split_and!; [by left|reflexivity|reflexivity].
  - destruct (decode_rejects "request_tv_5_1-x-3") as [_ H].
    destruct (H eq_refl) as (mt & rest & [= <- <-] & Hd).
    destruct Hd as (_ & _ & Hok). apply Hok.
    intros piece [<-|[<-|[<-|[]]]]; [by exists 1|done|by exists 3].
Defined.

(** C3, where the code departs from it: on a failed response the search
    returns a list of one element, the body text of the response, not the
    empty list; a transport failure is raised to the caller. *)
Theorem search_failure_returns_text :
  search_overseerr (λ _, ""%string) (λ q, q) (λ _, Ok failed_response)
    "dune" "movie"
  = Ok [ErrorText "Internal Server Error"]
  ∧ search_overseerr (λ _, ""%string) (λ q, q) (λ _, Raise TransportError)
      "dune" "movie"
    = Raise TransportError.
Proof. split; reflexivity. Qed.

Lemma status_derivation_witness :
  ∃ c,
    process_result (λ _, ""%string) (JObj sample_movie) = Ok c
    ∧ status c = "Available"%string.
Proof.
  apply (status_derivation (λ _, ""%string) sample_movie). reflexivity.
Defined.

Lemma year_of_release_date_witness :
  ∃ c,
    process_result (λ _, ""%string) (JObj sample_movie) = Ok c
    ∧ (∀ s, sample_movie !! "releaseDate" = Some (JStr s) →
         year c = JStr (PyStr.slice_to 4 s)
         ∧ String.length (PyStr.slice_to 4 s) = Nat.min 4 (String.length s)
         ∧ ∃ rest, s = PyStr.slice_to 4 s +:+ rest)
    ∧ (sample_movie !! "releaseDate" = None → year c = JStr "").
Proof.
  apply (year_of_release_date (λ _, ""%string) sample_movie). reflexivity.
Defined.

Lemma search_truncation_witness :
  ∃ cs,
    search_overseerr (λ _, ""%string) (λ q, q) (λ _, Ok sample_response)
      "dune" "movie"
    = Ok (map Candidate cs)
    ∧ (length cs ≤ 2)%nat
    ∧ Forall2 (λ r c, process_result (λ _, ""%string) r = Ok c)
        [JObj sample_movie; JObj sample_old_movie] cs
    ∧ ("movie"%string ≠ ""%string →
       Forall (λ c, media_type c = JStr "movie") cs).
Proof.
  apply (search_truncation (λ _, ""%string) (λ q, q) (λ _, Ok sample_response)
           "dune" "movie" sample_response sample_body sample_results);
    [reflexivity|reflexivity|reflexivity|reflexivity|].
  repeat constructor.
Defined.

(** ** Further properties of the codec *)

Section CodecExtras.

Import PyStr.

Lemma digit_char_plain c :
  is_digit_char c = true →
  is_int_space c = false ∧ c ≠ "+"%char ∧ c ≠ "-"%char ∧ c ≠ "_"%char.
Proof.
  intros Hc. split_and!; [|by intros ->..].
  destruct (is_int_space c) eqn:Hs; [|done].
  unfold is_digit_char, is_decimal, is_int_space in *.
  generalize dependent (code c). intros n Hc Hs. lia.
Qed.

(** [int] on a string that begins with neither white space nor a sign. *)
Lemma int_unsigned c r :
  is_int_space c = false → c ≠ "+"%char → c ≠ "-"%char →
  int (String c r)
  = match digits 0 false (String c r) with
    | Some v => Ok v
    | None => Raise ValueError
    end.
Proof.
  intros Hs Hplus Hminus. unfold int. cbn [skip_space]. rewrite Hs.
  destruct c as [[] [] [] [] [] [] [] []]; try done.
Qed.

Lemma digits_nonneg s : ∀ acc prev v,
  0 ≤ acc → digits acc prev s = Some v → 0 ≤ v.
Proof.
  induction s as [|c s IH]; intros acc prev v Hacc; cbn [digits].
  - destruct prev; [|done]. by intros [= <-].
  - destruct (is_decimal c) eqn:Hc.
    + apply IH. unfold is_decimal in Hc. unfold digit_value. lia.
    + destruct (Ascii.eqb c "_"); [destruct prev; [by apply IH|done]|].
      destruct (prev && _); [|done]. by intros [= <-].
Qed.

Lemma int_isdigit_nonneg s n : isdigit s = true → int s = Ok n → 0 ≤ n.
Proof.
  destruct s as [|c r]; [done|]. unfold isdigit. cbn [forallb_str].
  intros [Hc _]%andb_true_iff.
  destruct (digit_char_plain c Hc) as (Hs & Hplus & Hminus & _).
  rewrite int_unsigned by done.
  destruct (digits 0 false (String c r)) as [v|] eqn:Hd; [|done].
  intros [= <-]. by eapply digits_nonneg.
Qed.

Lemma isdigit_lacks sep s :
  is_digit_char sep = false → isdigit s = true → lacks sep s = true.
Proof.
  intros Hsep. destruct s as [|c r]; [done|]. unfold isdigit.
  apply forallb_str_impl. intros a Ha. apply negb_true_iff.
  destruct (Ascii.eqb_spec a sep); [congruence|done].
Qed.

Lemma mapM_int_nonneg segs seasons :
  mapM int (List.filter isdigit segs) = Ok seasons → Forall (λ n, 0 ≤ n) seasons.
Proof.
  revert seasons. induction segs as [|x segs IH]; intros seasons; simpl.
  - by intros [= <-].
  - destruct (isdigit x) eqn:Hx; [|by apply IH]. simpl.
    destruct (int x) as [n|] eqn:Hn; [|done]. simpl.
    destruct (mapM int (List.filter isdigit segs)) as [k|]; [|done]. simpl.
    intros [= <-]. constructor; [by eapply int_isdigit_nonneg|by apply IH].
Qed.

(** The decoding of the callback data of a show with a seasons segment made
    of the pieces [segs]. *)
Lemma decode_tv_segments id segs :
  segs ≠ [] →
  Forall (λ s, lacks "-" s = true) segs →
  Forall (λ s, lacks "_" s = true) segs →
  decode ("request_tv_" +:+ str id +:+ "_" +:+ join "-" segs)
  = Some (seasons ← mapM int (List.filter isdigit segs);
          Ok {| Token.media_type := "tv"; Token.media_id := id;
                Token.seasons := seasons_or_none seasons |}).
Proof.
  intros Hne Hdash Hund.
  change ("request_tv_" +:+ str id +:+ "_" +:+ join "-" segs)
    with ("request_" +:+ "tv" +:+ "_" +:+ str id +:+ String "_" (join "-" segs)).
  unfold decode. rewrite startswith_app.
  unfold parse_request. rewrite split_request by done.
  rewrite split_app by apply str_lacks_underscore.
  rewrite split_lacks by (by apply lacks_join).
  simpl. rewrite int_str. simpl.
  by rewrite split_join.
Qed.

Lemma decode_canonical media_type id seasons :
  media_type = "movie"%string ∨ media_type = "tv"%string →
  Forall (λ n, 0 ≤ n) seasons →
  decode (request_callback_data media_type id seasons)
  = Some (Ok {| Token.media_type := media_type; Token.media_id := id;
                Token.seasons := carried_seasons media_type seasons |}).
Proof.
  intros Hmt Hs.
  destruct (decide (media_type = "tv"%string ∧ seasons ≠ [])) as [[-> Hne]|Hno].
  - rewrite decode_seasons by done. by destruct seasons.
  - assert (seasons_str media_type seasons = ""%string
            ∧ carried_seasons media_type seasons = None) as [Hstr Hcar].
    { unfold seasons_str, carried_seasons.
      destruct Hmt as [-> | ->]; destruct seasons; try done.
      by destruct Hno. }
    unfold request_callback_data. rewrite Hstr, Hcar, append_nil_r.
    apply decode_plain. by destruct Hmt as [-> | ->].
Qed.

(** X1: the round trip of the codec on its whole domain: the callback data
    built for a film or a show, with any id and any seasons that are not
    negative, decodes to the same media type and id and to the seasons it
    carries. *)
Theorem callback_data_roundtrip (media_type : string) (id : Z)
    (seasons : list Z) :
  media_type = "movie"%string ∨ media_type = "tv"%string →
  Forall (λ n, 0 ≤ n) seasons →
  decode (request_callback_data media_type id seasons)
  = Some (Ok {| Token.media_type := media_type; Token.media_id := id;
                Token.seasons := carried_seasons media_type seasons |})
  ∧ (∀ l, carried_seasons media_type seasons = Some l →
          media_type = "tv"%string ∧ Sorted Z.le l ∧ l ≡ₚ seasons).
Proof.
  intros Hmt Hs. split; [by apply decode_canonical|].
  unfold carried_seasons. intros l.
  destruct (String.eqb_spec media_type "tv") as [->|]; [|done].
  destruct seasons as [|n seasons]; [done|]. intros [= <-].
  split_and!; [done|apply sorted_Sorted|apply sorted_Permutation].
Qed.

(** X2: the encoding is injective: two offers with the same callback data
    have the same media type, the same id and carry the same seasons. *)
Theorem callback_data_injective (mt1 mt2 : string) (id1 id2 : Z)
    (seasons1 seasons2 : list Z) :
  mt1 = "movie"%string ∨ mt1 = "tv"%string →
  mt2 = "movie"%string ∨ mt2 = "tv"%string →
  Forall (λ n, 0 ≤ n) seasons1 → Forall (λ n, 0 ≤ n) seasons2 →
  request_callback_data mt1 id1 seasons1 = request_callback_data mt2 id2 seasons2 →
  mt1 = mt2 ∧ id1 = id2
  ∧ carried_seasons mt1 seasons1 = carried_seasons mt2 seasons2.
Proof.
  intros Hmt1 Hmt2 Hs1 Hs2 Heq.
  pose proof (decode_canonical mt1 id1 seasons1 Hmt1 Hs1) as H1.
  pose proof (decode_canonical mt2 id2 seasons2 Hmt2 Hs2) as H2.
  rewrite Heq, H2 in H1. by injection H1 as -> -> ->.
Qed.

(** X3: whatever string is decoded, the seasons of the token are either
    absent or a non-empty list of integers that are not negative, and they
    are present only on a token of media type tv. *)
Theorem decoded_seasons_invariant (s : string) (tok : Token.t) :
  decode s = Some (Ok tok) →
  match Token.seasons tok with
  | None => True
  | Some l =>
      Token.media_type tok = "tv"%string ∧ l ≠ [] ∧ Forall (λ n, 0 ≤ n) l
  end.
Proof.
  unfold decode. destruct (startswith s "request_"); [|done].
  intros [= Hparse]. revert Hparse. unfold parse_request.
  destruct (index (split "_" s) 1) as [mt|]; [|done]. simpl.
  destruct (index (split "_" s) 2) as [idp|]; [|done]. simpl.
  destruct (int idp) as [id|]; [|done]. simpl.
  destruct ((3 <? length (split "_" s))%nat && String.eqb mt "tv") eqn:Hcond;
    [|by intros [= <-]].
  apply andb_true_iff in Hcond as [_ Hmt%String.eqb_eq].
  destruct (index (split "_" s) 3) as [sp|]; [|done]. simpl.
  destruct (mapM int (List.filter isdigit (split "-" sp))) as [l|] eqn:Hl;
    [|done].
  simpl. intros [= <-]. simpl.
  destruct l as [|n l]; [done|].
  split_and!; [done|done|by eapply mapM_int_nonneg].
Qed.

(** X4: a piece of the seasons segment that [isdigit] lets through and
    [int] refuses (the superscript digit U+00B2 is one) is not skipped: the
    whole decoding fails. *)
Theorem decode_fails_on_refused_piece (id : Z) (segs : list string)
    (s : string) :
  In s segs →
  isdigit s = true → int s = Raise ValueError →
  Forall (λ s, lacks "-" s = true) segs →
  Forall (λ s, lacks "_" s = true) segs →
  decode ("request_tv_" +:+ str id +:+ "_" +:+ join "-" segs)
  = Some (Raise ValueError).
Proof.
  intros Hin Hdig Hraise Hdash Hund.
  rewrite decode_tv_segments; [|by destruct segs|done|done].
  rewrite (mapM_int_raises _ s); [done| |done].
  apply filter_In. by split.
Qed.

(** X5: a piece of the seasons segment that [isdigit] refuses (a word, an
    empty piece between two dashes) is skipped and the seasons around it are
    kept, in their order. *)
Theorem decode_skips_junk (id : Z) (before after : list Z) (junk : string) :
  isdigit junk = false →
  lacks "-" junk = true → lacks "_" junk = true →
  Forall (λ n, 0 ≤ n) before → Forall (λ n, 0 ≤ n) after →
  decode ("request_tv_" +:+ str id +:+ "_"
          +:+ join "-" (map str before ++ junk :: map str after))
  = Some (Ok {| Token.media_type := "tv"; Token.media_id := id;
                Token.seasons := seasons_or_none (before ++ after) |}).
Proof.
  intros Hjunk Hdash Hund Hb Ha.
  assert (∀ sep, is_decimal sep = false → ∀ l, Forall (λ n, 0 ≤ n) l →
            Forall (λ s, lacks sep s = true) (map str l)) as Hlacks.
  { intros sep Hsep l Hl. apply List.Forall_map. revert Hl.
    apply List.Forall_impl. intros n Hn.
    apply lacks_decimal; [done|by apply str_decimal]. }
  rewrite decode_tv_segments.
  - rewrite List.filter_app. cbn [List.filter]. rewrite Hjunk.
    rewrite !filter_isdigit_str by done.
    rewrite <- List.map_app, mapM_int_str. done.
  - by destruct before.
  - apply Forall_app. split; [by apply Hlacks|].
    constructor; [done|by apply Hlacks].
  - apply Forall_app. split; [by apply Hlacks|].
    constructor; [done|by apply Hlacks].
Qed.

End CodecExtras.

(** ** Further properties of the request call and of the callback handler *)

Section CallbackExtras.

Import PyStr.

Variable requests_post : gmap string payload_value → result post_response.

Lemma decode_empty : decode "" = None.
Proof. done. Qed.

(** The backend calls of one button press. *)
Lemma post_calls_button_callback data w :
  post_calls (button_callback requests_post (Some (Some data)) w)
  = post_calls w
    ++ match decode data with
       | Some (Ok tok) =>
           [request_payload (Token.media_id tok) (Token.media_type tok)
              (Token.seasons tok)]
       | _ => []
       end.
Proof.
  unfold button_callback.
  destruct (String.eqb_spec data "") as [->|Hdata].
  { rewrite decode_empty. by rewrite app_nil_r. }
  destruct (decode data) as [[tok|e]|].
  - pose proof (request_overseerr_posts requests_post (Token.media_id tok)
                  (Token.media_type tok) (Token.seasons tok) (answer w)) as Hp.
    destruct (request_overseerr _ _ _ _ _) as [[msg|e] w']; exact Hp.
  - simpl. by rewrite app_nil_r.
  - destruct (String.eqb data "cancel_request"); simpl; by rewrite app_nil_r.
Qed.

(** X6: one button press calls the backend at most once, and exactly when
    the callback data decodes to a token; the payload is the one of the
    decoded token. *)
Theorem backend_called_iff_decoded (data : string) (w : world) :
  (∀ tok, decode data = Some (Ok tok) →
     post_calls (button_callback requests_post (Some (Some data)) w)
     = post_calls w
       ++ [request_payload (Token.media_id tok) (Token.media_type tok)
             (Token.seasons tok)])
  ∧ ((∀ tok, decode data ≠ Some (Ok tok)) →
     post_calls (button_callback requests_post (Some (Some data)) w)
     = post_calls w).
Proof.
  rewrite post_calls_button_callback. split.
  - by intros tok ->.
  - intros Hno. destruct (decode data) as [[tok|e]|]; rewrite ?app_nil_r; try done.
    by destruct (Hno tok).
Qed.

(** X7: every press is acknowledged once; a press whose data starts with the
    request prefix or is the cancellation token sets exactly one text, any
    other press sets none. *)
Theorem button_callback_replies (data : string) (w : world) :
  answered (button_callback requests_post (Some (Some data)) w)
  = S (answered w)
  ∧ if startswith data "request_" || String.eqb data "cancel_request"
    then ∃ msg,
           edited (button_callback requests_post (Some (Some data)) w)
           = edited w ++ [msg]
    else edited (button_callback requests_post (Some (Some data)) w)
         = edited w.
Proof.
  unfold button_callback.
  destruct (String.eqb_spec data "") as [->|Hdata]; [done|].
  unfold decode. destruct (startswith data "request_"); cbn [orb].
  - destruct (parse_request data) as [tok|e]; [|by eauto].
    unfold request_overseerr.
    destruct (requests_post _) as [resp|e]; [destruct (ok resp)|]; by eauto.
  - destruct (String.eqb data "cancel_request"); by eauto.
Qed.


(** X9: pressing the confirmation button of the keyboard that
    [handle_message] builds for an offer hands the backend exactly one
    payload, for the offered id and media type and the seasons the offer
    carries; pressing its cancellation button hands it none. *)
Theorem confirm_executes_offer (so : OverseerrResponse.t) (media_type : string)
    (media_id : Z) (w : world) :
  OverseerrResponse.action so = Some "offer_request"%string →
  OverseerrResponse.media_type so = Some media_type →
  OverseerrResponse.media_id so = Some media_id →
  media_type = "movie"%string ∨ media_type = "tv"%string →
  media_id ≠ 0 →
  Forall (λ n, 0 ≤ n) (default [] (OverseerrResponse.seasons so)) →
  ∃ kb,
    offer_keyboard so = Some kb
    ∧ post_calls
        (button_callback requests_post (Some (Some (callback_data kb))) w)
      = post_calls w
        ++ [request_payload media_id media_type
              (carried_seasons media_type
                 (default [] (OverseerrResponse.seasons so)))]
    ∧ post_calls
        (button_callback requests_post (Some (Some (cancel_data kb))) w)
      = post_calls w.
Proof.
  intros Hact Htype Hid Hmt Hnz Hs.
  unfold offer_keyboard. rewrite Hact, Htype, Hid.
  change (String.eqb "offer_request" "offer_request") with true.
  assert ((media_id =? 0) = false) as -> by lia.
  assert (String.eqb media_type "" = false) as ->.
  { by destruct Hmt as [-> | ->]. }
  eexists. split; [reflexivity|]. cbn [callback_data cancel_data].
  rewrite !post_calls_button_callback, decode_canonical by done.
  split; [done|]. by rewrite app_nil_r.
Qed.

(** X10: the success text names the seasons whenever seasons were passed,
    also for a media type other than tv, for which the payload does not
    carry them. *)
Theorem success_text_names_unsent_seasons (media_id : Z) (media_type : string)
    (n : Z) (l : list Z) (resp : post_response) (w : world) :
  media_type ≠ "tv"%string →
  requests_post (request_payload media_id media_type (Some (n :: l))) = Ok resp →
  ok resp = true →
  request_payload media_id media_type (Some (n :: l)) !! "seasons" = None
  ∧ (request_overseerr requests_post media_id media_type (Some (n :: l)) w).1
    = Ok ("Successfully requested " +:+ media_type +:+ " with ID "
          +:+ str media_id
          +:+ (" (Seasons: " +:+ join ", " (map str (n :: l)) +:+ ")")
          +:+ ".").
Proof.
  intros Hmt Hpost Hok. split.
  - destruct (request_payload_cases media_id media_type (Some (n :: l)))
      as [(Htv & _)|[_ ->]]; [done|].
    by rewrite !lookup_insert_ne.
  - unfold request_overseerr. rewrite Hpost, Hok. done.
Qed.

End CallbackExtras.

(** ** Properties of the message handler *)

Section MessageExtras.

Variable agent_executor : option string → result agent_response.
Variable delivers : outbound → bool.

Lemma offer_keyboard_needs_offer so :
  OverseerrResponse.action so ≠ Some "offer_request"%string →
  offer_keyboard so = None.
Proof.
  intros Hact. unfold offer_keyboard.
  destruct (OverseerrResponse.action so) as [a|]; [|done].
  destruct (String.eqb_spec a "offer_request") as [->|]; [done|done].
Qed.

(** X11: when the structured response of the agent is missing or its action
    is not "offer_request", no message that [handle_message] sends carries a
    keyboard, so no request can be confirmed from it. *)
Theorem no_offer_no_keyboard (text : option string) :
  (∀ response so,
     agent_executor text = Ok response →
     structured_response response = Some so →
     OverseerrResponse.action so ≠ Some "offer_request"%string) →
  Forall (λ m, markup_of m = None)
    (handle_message agent_executor delivers (Some text)).
Proof.
  intros Hno. unfold handle_message.
  destruct (agent_executor text) as [response|e] eqn:Hagent;
    [|by repeat constructor].
  assert ((reply_of response).2 = None) as Hkb.
  { unfold reply_of. destruct (last (messages response)); [|done].
    destruct (structured_response response) as [so|] eqn:Hso; [|done].
    simpl. apply offer_keyboard_needs_offer. by eapply Hno. }
  destruct (reply_of response) as [[reply_text poster] kb].
  simpl in Hkb. subst kb.
  repeat case_match; simplify_eq; by repeat constructor.
Qed.

(** X12: for an update with a message the handler always sends something
    and stops at the first message that is delivered: every message before
    the last one failed, and the last one was delivered or is the apology,
    after at most two failures. *)
Theorem handle_message_delivery (text : option string) :
  ∃ failed final,
    handle_message agent_executor delivers (Some text) = failed ++ [final]
    ∧ Forall (λ m, delivers m = false) failed
    ∧ (delivers final = true ∨ final = apology)
    ∧ (length failed ≤ 2)%nat.
Proof.
  unfold handle_message.
  destruct (agent_executor text) as [response|e].
  2: { exists [], apology. split_and!; [done|done|by right|simpl; lia]. }
  destruct (reply_of response) as [[reply_text poster] kb].
  set (plain := ReplyText reply_text kb).
  destruct (match poster with
            | Some url =>
                if String.eqb url "" then None
                else Some (SendMessage (reply_text +:+ String "010" url) kb)
            | None => None
            end) as [m|].
  - destruct (delivers m) eqn:Hm.
    { exists [], m. split_and!; [done|done|by left|simpl; lia]. }
    destruct (delivers plain) eqn:Hp.
    { exists [m], plain. split_and!; [done|by repeat constructor|by left|simpl; lia]. }
    exists [m; plain], apology.
    split_and!; [done|by repeat constructor|by right|simpl; lia].
  - destruct (delivers plain) eqn:Hp.
    { exists [], plain. split_and!; [done|done|by left|simpl; lia]. }
    exists [plain], apology.
    split_and!; [done|by repeat constructor|by right|simpl; lia].
Qed.

End MessageExtras.

(** ** Further properties of the catalogue search *)

Section ProcessExtras.

Import PyStr.

Variable py_repr : json → string.

Lemma derive_status_raises x :
  dict_or_false x = false → derive_status x = Raise AttributeError.
Proof.
  unfold derive_status. destruct x; simpl; try done;
    intros Ht%negb_false_iff; simpl in Ht; by rewrite Ht.
Qed.

Lemma process_result_not_wf r :
  well_formed r = false → ∃ e, process_result py_repr r = Raise e.
Proof.
  destruct r as [| | | | |o]; try by eauto.
  unfold well_formed, process_result, get. cbn [mbind result_bind].
  destruct (dict_or_false (default JNull (o !! "mediaInfo"))) eqn:Hmi.
  - rewrite (derive_status_spec _ Hmi). cbn [mbind result_bind andb].
    destruct (default (JStr "") (o !! "releaseDate")); by eauto.
  - rewrite (derive_status_raises _ Hmi). by eauto.
Qed.

(** X13: a result of the backend is processed without raising exactly when
    it is a dict whose [mediaInfo] is a dict or false and whose
    [releaseDate], if present, is a string or a list; a null release date
    makes the processing raise. *)
Theorem process_result_ok_iff (r : json) :
  (∃ c, process_result py_repr r = Ok c) ↔ well_formed r = true.
Proof.
  split.
  - intros [c Hc]. destruct (well_formed r) eqn:Hwf; [done|].
    destruct (process_result_not_wf r Hwf) as [e He]. congruence.
  - intros Hwf. destruct r as [| | | | |o]; try done.
    destruct (process_result_wf py_repr o Hwf) as (st & yr & _ & _ & Hc).
    by eauto.
Qed.

(** X14: the poster of a processed result is the image host prefix followed
    by its [posterPath] when that is a non-empty string, and is absent when
    the path is missing, null or empty. *)
Theorem poster_url_derivation (o : gmap string json) :
  well_formed (JObj o) = true →
  ∃ c,
    process_result py_repr (JObj o) = Ok c
    ∧ (∀ p, o !! "posterPath" = Some (JStr p) → p ≠ ""%string →
         poster_url c = JStr (IMAGE_TMDB_URL +:+ p))
    ∧ (o !! "posterPath" = None ∨ o !! "posterPath" = Some JNull
       ∨ o !! "posterPath" = Some (JStr "") →
       poster_url c = JNull).
Proof.
  intros Hwf. destruct (process_result_wf py_repr o Hwf) as (st & yr & _ & _ & Hc).
  eexists. split; [exact Hc|]. cbn [poster_url]. split.
  - intros p -> Hp. simpl. by apply String.eqb_neq in Hp as ->.
  - by intros [-> | [-> | ->]].
Qed.

(** X15: the title of a processed result is its [title] when that is a
    non-empty string, and its [name] (as shows have it) when the title is
    missing, null or empty. *)
Theorem title_falls_back_to_name (o : gmap string json) :
  well_formed (JObj o) = true →
  ∃ c,
    process_result py_repr (JObj o) = Ok c
    ∧ (∀ t, o !! "title" = Some (JStr t) → t ≠ ""%string → title c = JStr t)
    ∧ (o !! "title" = None ∨ o !! "title" = Some JNull
       ∨ o !! "title" = Some (JStr "") →
       title c = default JNull (o !! "name")).
Proof.
  intros Hwf. destruct (process_result_wf py_repr o Hwf) as (st & yr & _ & _ & Hc).
  eexists. split; [exact Hc|]. cbn [title]. split.
  - intros t -> Ht. simpl. by apply String.eqb_neq in Ht as ->.
  - by intros [-> | [-> | ->]].
Qed.

Lemma process_loop_raises rs : ∀ processed,
  Exists (λ r, well_formed r = false) rs →
  ∃ e, process_loop py_repr rs processed = Raise e.
Proof.
  induction rs as [|r rs IH]; intros processed Hex; [by inversion Hex|].
  cbn [process_loop].
  destruct (well_formed r) eqn:Hwf.
  - apply Exists_cons in Hex as [Hr|Hex]; [congruence|].
    destruct r as [| | | | |o]; try done.
    destruct (process_result_wf py_repr o Hwf) as (st & yr & _ & _ & ->).
    cbn [mbind result_bind]. by apply IH.
  - destruct (process_result_not_wf r Hwf) as [e ->]. by eauto.
Qed.

End ProcessExtras.

Section SearchExtraFacts.

Lemma filter_media_type_dicts media_type rs :
  Forall (λ r, is_dict r = true) rs →
  filter_media_type media_type rs
  = Ok (List.filter (has_media_type media_type) rs).
Proof.
  induction 1 as [|r rs Hr Hrs IH]; [done|].
  destruct r as [| | | | |o]; try done.
  cbn [filter_media_type get List.filter has_media_type mbind result_bind].
  rewrite IH. cbn [mbind result_bind]. by case_match.
Qed.

End SearchExtraFacts.

Section SearchExtras.

Variable py_repr : json → string.
Variable quote_plus : string → string.
Variable httpx_get : string → result http_response.

(** The search on a response whose results are a list: the loop runs over
    the first two results that are kept. *)
Lemma search_on_list query requested resp (body : gmap string json) rs :
  httpx_get (quote_plus query) = Ok resp →
  is_success resp = true →
  json_body resp = Ok (JObj body) →
  body !! "results" = Some (JList rs) →
  requested = ""%string ∨ Forall (λ r, is_dict r = true) rs →
  search_overseerr py_repr quote_plus httpx_get query requested
  = (cs ← process_loop py_repr
            (take 2 (if String.eqb requested "" then rs
                     else List.filter (has_media_type requested) rs)) [];
     Ok (map Candidate cs)).
Proof.
  intros Hget Hsucc Hbody Hres Hdicts.
  unfold search_overseerr. rewrite Hget. cbn [mbind result_bind].
  rewrite Hsucc, Hbody. cbn [mbind result_bind get]. rewrite Hres.
  cbn [default from_option id].
  destruct (String.eqb_spec requested "") as [->|Hreq];
    cbn [negb iterate mbind result_bind]; [done|].
  destruct Hdicts as [?|Hdicts]; [done|].
  by rewrite (filter_media_type_dicts _ _ Hdicts).
Qed.

(** X16: only the first two results that are kept are processed: the search
    returns their processed forms as soon as these two are well formed,
    whatever the later results hold. *)
Theorem search_ignores_rest (query requested : string) (resp : http_response)
    (body : gmap string json) (rs : list json) :
  httpx_get (quote_plus query) = Ok resp →
  is_success resp = true →
  json_body resp = Ok (JObj body) →
  body !! "results" = Some (JList rs) →
  requested = ""%string ∨ Forall (λ r, is_dict r = true) rs →
  Forall (λ r, well_formed r = true)
    (take 2 (if String.eqb requested "" then rs
             else List.filter (has_media_type requested) rs)) →
  ∃ cs,
    search_overseerr py_repr quote_plus httpx_get query requested
    = Ok (map Candidate cs)
    ∧ Forall2 (λ r c, process_result py_repr r = Ok c)
        (take 2 (if String.eqb requested "" then rs
                 else List.filter (has_media_type requested) rs))
        cs.
Proof.
  intros Hget Hsucc Hbody Hres Hdicts Hwf.
  rewrite (search_on_list _ _ _ _ _ Hget Hsucc Hbody Hres Hdicts).
  destruct (process_loop_spec py_repr _ Hwf []) as (cs & -> & Hcs).
  by exists cs.
Qed.

(** X17: when one of the first two results that are kept is not well formed
    (its release date is null, say), the search raises instead of returning
    the other result. *)
Theorem search_raises_on_ill_formed (query requested : string)
    (resp : http_response) (body : gmap string json) (rs : list json) :
  httpx_get (quote_plus query) = Ok resp →
  is_success resp = true →
  json_body resp = Ok (JObj body) →
  body !! "results" = Some (JList rs) →
  requested = ""%string ∨ Forall (λ r, is_dict r = true) rs →
  Exists (λ r, well_formed r = false)
    (take 2 (if String.eqb requested "" then rs
             else List.filter (has_media_type requested) rs)) →
  ∃ e,
    search_overseerr py_repr quote_plus httpx_get query requested = Raise e.
Proof.
  intros Hget Hsucc Hbody Hres Hdicts Hex.
  rewrite (search_on_list _ _ _ _ _ Hget Hsucc Hbody Hres Hdicts).
  destruct (process_loop_raises py_repr _ [] Hex) as [e ->]. by eauto.
Qed.

(** X18: a successful response whose body has no [results] key gives the
    empty list, with or without a requested media type. *)
Theorem search_without_results_key (query requested : string)
    (resp : http_response) (body : gmap string json) :
  httpx_get (quote_plus query) = Ok resp →
  is_success resp = true →
  json_body resp = Ok (JObj body) →
  body !! "results" = None →
  search_overseerr py_repr quote_plus httpx_get query requested = Ok [].
Proof.
  intros Hget Hsucc Hbody Hres.
  unfold search_overseerr. rewrite Hget. cbn [mbind result_bind].
  rewrite Hsucc, Hbody. cbn [mbind result_bind get]. rewrite Hres.
  by destruct (String.eqb requested "").
Qed.

End SearchExtras.

(** ** The further properties on sample data *)

Lemma callback_data_roundtrip_witness :
  decode (request_callback_data "tv" 77 [3; 1])
  = Some (Ok {| Token.media_type := "tv"; Token.media_id := 77;
                Token.seasons := carried_seasons "tv" [3; 1] |})
  ∧ (∀ l, carried_seasons "tv" [3; 1] = Some l →
          "tv"%string = "tv"%string ∧ Sorted Z.le l ∧ l ≡ₚ [3; 1]).
Proof.
  apply (callback_data_roundtrip "tv" 77 [3; 1]); [by right|].
  repeat constructor; lia.
Defined.

Lemma callback_data_injective_witness :
  "tv"%string = "tv"%string ∧ 77 = 77
  ∧ carried_seasons "tv" [3; 1] = carried_seasons "tv" [1; 3].
Proof.
  apply (callback_data_injective "tv" "tv" 77 77 [3; 1] [1; 3]);
    [by right|by right| | |reflexivity]; repeat constructor; lia.
Defined.

Lemma decoded_seasons_invariant_witness :
  "tv"%string = "tv"%string ∧ [1; 3] ≠ [] ∧ Forall (λ n, 0 ≤ n) [1; 3].
Proof.
  apply (decoded_seasons_invariant "request_tv_77_1-3" sample_token).
  reflexivity.
Defined.

Lemma decode_fails_on_refused_piece_witness :
  decode ("request_tv_" +:+ PyStr.str 5 +:+ "_"
          +:+ PyStr.join "-" ["1"%string; superscript_two])
  = Some (Raise ValueError).
Proof.
  apply (decode_fails_on_refused_piece 5 ["1"%string; superscript_two]
           superscript_two);
    [right; left; reflexivity|reflexivity|reflexivity| |];
    repeat constructor.
Defined.

Lemma decode_skips_junk_witness :
  decode ("request_tv_" +:+ PyStr.str 5 +:+ "_"
          +:+ PyStr.join "-" (map PyStr.str [1] ++ "x"%string :: map PyStr.str [3]))
  = Some (Ok {| Token.media_type := "tv"; Token.media_id := 5;
                Token.seasons := seasons_or_none ([1] ++ [3]) |}).
Proof.
  apply (decode_skips_junk 5 [1] [3] "x");
    [reflexivity|reflexivity|reflexivity| |]; repeat constructor; lia.
Defined.

Lemma backend_called_iff_decoded_witness :
  post_calls
    (button_callback accepting_backend (Some (Some "request_tv_77_1-3"%string))
       fresh_world)
  = post_calls fresh_world ++ [request_payload 77 "tv" (Some [1; 3])].
Proof.
  apply (proj1 (backend_called_iff_decoded accepting_backend
                  "request_tv_77_1-3" fresh_world) sample_token).
  reflexivity.
Defined.


Lemma confirm_executes_offer_witness :
  ∃ kb,
    offer_keyboard offer_show = Some kb
    ∧ post_calls
        (button_callback accepting_backend (Some (Some (callback_data kb)))
           fresh_world)
      = post_calls fresh_world
        ++ [request_payload 77 "tv" (carried_seasons "tv" [3; 1])]
    ∧ post_calls
        (button_callback accepting_backend (Some (Some (cancel_data kb)))
           fresh_world)
      = post_calls fresh_world.
Proof.
  apply (confirm_executes_offer accepting_backend offer_show "tv" 77
           fresh_world);
    [reflexivity|reflexivity|reflexivity|by right|lia|].
  repeat constructor; lia.
Defined.

Lemma success_text_names_unsent_seasons_witness :
  request_payload 123 "movie" (Some [2]) !! "seasons" = None
  ∧ (request_overseerr accepting_backend 123 "movie" (Some [2]) fresh_world).1
    = Ok "Successfully requested movie with ID 123 (Seasons: 2)."%string.
Proof.
  apply (success_text_names_unsent_seasons accepting_backend 123 "movie" 2 []
           {| ok := true; post_status_code := 201; error_details := None |}
           fresh_world);
    [discriminate|reflexivity|reflexivity].
Defined.

Lemma no_offer_no_keyboard_witness :
  Forall (λ m, markup_of m = None)
    (handle_message (λ _, Ok status_report) (λ _, true)
       (Some (Some "/dune"%string))).
Proof.
  apply (no_offer_no_keyboard (λ _, Ok status_report) (λ _, true)
           (Some "/dune"%string)).
  intros response so [= <-] [= <-]. discriminate.
Defined.

Lemma poster_url_derivation_witness :
  ∃ c,
    process_result (λ _, ""%string) (JObj sample_movie) = Ok c
    ∧ (∀ p, sample_movie !! "posterPath" = Some (JStr p) → p ≠ ""%string →
         poster_url c = JStr (IMAGE_TMDB_URL +:+ p))
    ∧ (sample_movie !! "posterPath" = None
       ∨ sample_movie !! "posterPath" = Some JNull
       ∨ sample_movie !! "posterPath" = Some (JStr "") →
       poster_url c = JNull).
Proof.
  apply (poster_url_derivation (λ _, ""%string) sample_movie). reflexivity.
Defined.

Lemma title_falls_back_to_name_witness :
  ∃ c,
    process_result (λ _, ""%string) (JObj sample_show) = Ok c
    ∧ (∀ t, sample_show !! "title" = Some (JStr t) → t ≠ ""%string →
         title c = JStr t)
    ∧ (sample_show !! "title" = None ∨ sample_show !! "title" = Some JNull
       ∨ sample_show !! "title" = Some (JStr "") →
       title c = default JNull (sample_show !! "name")).
Proof.
  apply (title_falls_back_to_name (λ _, ""%string) sample_show). reflexivity.
Defined.

Lemma search_ignores_rest_witness :
  ∃ cs,
    search_overseerr (λ _, ""%string) (λ q, q)
      (λ _, Ok (response_with sample_results_undated_third)) "dune" "movie"
    = Ok (map Candidate cs)
    ∧ Forall2 (λ r c, process_result (λ _, ""%string) r = Ok c)
        [JObj sample_movie; JObj sample_old_movie] cs.
Proof.
  apply (search_ignores_rest (λ _, ""%string) (λ q, q)
           (λ _, Ok (response_with sample_results_undated_third))
           "dune" "movie" (response_with sample_results_undated_third)
           {[ "results" := JList sample_results_undated_third ]}
           sample_results_undated_third);
    [reflexivity|reflexivity|reflexivity|reflexivity| |].
  - right. repeat constructor.
  - repeat constructor.
Defined.

Lemma search_raises_on_ill_formed_witness :
  ∃ e,
    search_overseerr (λ _, ""%string) (λ q, q)
      (λ _, Ok (response_with sample_results_undated_first)) "dune" "movie"
    = Raise e.
Proof.
  apply (search_raises_on_ill_formed (λ _, ""%string) (λ q, q)
           (λ _, Ok (response_with sample_results_undated_first))
           "dune" "movie" (response_with sample_results_undated_first)
           {[ "results" := JList sample_results_undated_first ]}
           sample_results_undated_first);
    [reflexivity|reflexivity|reflexivity|reflexivity| |].
  - right. repeat constructor.
  - left. reflexivity.
Defined.

Lemma search_without_results_key_witness :
  search_overseerr (λ _, ""%string) (λ q, q)
    (λ _, Ok response_without_results) "dune" "movie"
  = Ok [].
Proof.
  apply (search_without_results_key (λ _, ""%string) (λ q, q)
           (λ _, Ok response_without_results) "dune" "movie"
           response_without_results ∅); reflexivity.
Defined.

Lemma search_at_most_two_witness :
  match search_overseerr (λ _, ""%string) (λ q, q) (λ _, Ok sample_response)
          "dune" "movie" with
  | Ok items => (length items ≤ 2)%nat
  | Raise _ => False
  end.
Proof.
  pose proof (search_at_most_two (λ _, ""%string) (λ q, q)
                (λ _, Ok sample_response) "dune" "movie" sample_response)
    as Hbound.
  destruct (search_overseerr _ _ _ _ _) as [items|e] eqn:Hsearch.
  - by apply Hbound.
  - vm_compute in Hsearch. discriminate.
Defined.
